(** * Employee Management System: client data-access and role-gated views

    A shallow embedding of [src/unnamed/part_000] (the tasks service) and of
    [src/src/App.jsx] (the [App], [ManagerDashboard] and [EmployeeDashboard]
    components).  The hosted backend is modelled as a store of tables
    ([Db]) reached through a gateway whose remote failures are drawn from an
    oracle stream; React state is an explicit record threaded through a small
    state-and-exception monad. *)

From Stdlib Require Import String List ZArith Bool Lia.
From Stdlib Require Import Sorting.Permutation Sorting.Sorted.
Import ListNotations.
Open Scope string_scope.

(* ------------------------------------------------------------------ *)
(** ** JavaScript values that reach the service from forms *)

Inductive jsval :=
| JUndefined
| JNull
| JStr (s : string).

(** JavaScript truthiness of such a value. *)
Definition truthy (v : jsval) : bool :=
  match v with
  | JUndefined | JNull => false
  | JStr s => negb (String.eqb s "")
  end.

(** [a || b] *)
Definition js_or (a b : jsval) : jsval := if truthy a then a else b.

(** A JS value written into a nullable text column. *)
Definition to_column (v : jsval) : option string :=
  match v with
  | JStr s => Some s
  | _ => None
  end.

(* ------------------------------------------------------------------ *)
(** ** Rows of the remote tables *)

Module Task.
(** A row of [tasks(id, title, description, status, due_date,
    employee_email, created_at, completed_at)]. *)
Record t := mk {
  id : Z;
  title : string;
  description : string;
  status : string;
  due_date : option string;
  employee_email : string;
  created_at : Z;
  completed_at : option string
}.
End Task.

Module TaskRow.
(** What [select('id, title, description, status, due_date,
    employee_email, created_at')] returns for one task: [completed_at] is
    not among the selected columns. *)
Record t := mk {
  id : Z;
  title : string;
  description : string;
  status : string;
  due_date : option string;
  employee_email : string;
  created_at : Z
}.

Definition of_task (r : Task.t) : t :=
  mk (Task.id r) (Task.title r) (Task.description r) (Task.status r)
     (Task.due_date r) (Task.employee_email r) (Task.created_at r).
End TaskRow.

Module TaskPatch.
(** The object handed to [.update(...)]: [None] is a key that is absent
    from the object, so the column is left as it is. *)
Record t := mk {
  title : option string;
  description : option string;
  status : option string;
  due_date : option (option string);
  employee_email : option string;
  completed_at : option (option string)
}.

Definition empty : t := mk None None None None None None.

Definition keep {A} (o : option A) (old : A) : A :=
  match o with Some v => v | None => old end.

(** The store writes the keys present in the patch, and only those. *)
Definition apply (p : t) (r : Task.t) : Task.t :=
  Task.mk (Task.id r)
    (keep (title p) (Task.title r))
    (keep (description p) (Task.description r))
    (keep (status p) (Task.status r))
    (keep (due_date p) (Task.due_date r))
    (keep (employee_email p) (Task.employee_email r))
    (Task.created_at r)
    (keep (completed_at p) (Task.completed_at r)).
End TaskPatch.

Module TaskInput.
(** The [task] argument of [createTask] / [updateTask]: the task form's
    values ([id] is [null] for a new task). *)
Record t := mk {
  id : option Z;
  title : string;
  description : string;
  status : string;
  due_date : jsval;
  employee_email : string
}.
End TaskInput.

Module Employee.
(** A row of [employees(id, full_name, email, role, status)]. *)
Record t := mk {
  id : Z;
  full_name : string;
  email : string;
  role : string;
  status : string
}.
End Employee.

Module EmployeeInput.
Record t := mk {
  id : option Z;
  full_name : string;
  email : string;
  role : string;
  status : string
}.
End EmployeeInput.

Module Profile.
(** A row of [profiles(id, full_name, role)]; [role] may be null. *)
Record t := mk {
  id : string;
  full_name : string;
  role : option string
}.
End Profile.

Module Session.
Record t := mk {
  user_id : string;
  user_email : string
}.
End Session.

(** What a remote operation yields: a value, or a thrown error. *)
Inductive outcome (A : Type) :=
| Ret (a : A)
| Throw (e : string).
Arguments Ret {A}.
Arguments Throw {A}.

(** The remote store. [next_id] is the identity sequence of [tasks] and
    [employees]; [auth] is the auth service's verdict on an email and a
    password: a session, or a rejection with its message. *)
Record Db := mkDb {
  tasks : list Task.t;
  employees : list Employee.t;
  profiles : list Profile.t;
  next_id : Z;
  auth : string -> string -> outcome Session.t
}.

(* ------------------------------------------------------------------ *)
(** ** The client world and the state-and-exception monad *)

(** [ui] is the React state of the component under study, [net] the
    outcome of each coming remote call ([Some e]: the backend answers with
    error [e]; [None] or an exhausted stream: it succeeds), [now_ts] the
    server clock and [now_iso] the client's [new Date().toISOString()]. *)
Record world (S : Type) := mkWorld {
  ui : S;
  db : Db;
  net : list (option string);
  now_ts : Z;
  now_iso : string
}.
Arguments mkWorld {S}.
Arguments ui {S}.
Arguments db {S}.
Arguments net {S}.
Arguments now_ts {S}.
Arguments now_iso {S}.

Definition M (S A : Type) := world S -> world S * outcome A.

Definition ret {S A} (a : A) : M S A := fun w => (w, Ret a).
Definition throw {S A} (e : string) : M S A := fun w => (w, Throw e).

Definition bind {S A B} (m : M S A) (f : A -> M S B) : M S B :=
  fun w => match m w with
           | (w', Ret a) => f a w'
           | (w', Throw e) => (w', Throw e)
           end.

Notation "x <- m ;; k" := (bind m (fun x => k))
  (at level 61, m at next level, right associativity).
Notation "m ;; k" := (bind m (fun _ => k)) (at level 61, right associativity).

(** [try { m } catch (err) { h(err) }] *)
Definition try_catch {S A} (m : M S A) (h : string -> M S A) : M S A :=
  fun w => match m w with
           | (w', Throw e) => h e w'
           | r => r
           end.

(** [setX(v)]: a React state update. *)
Definition modify {S} (f : S -> S) : M S unit :=
  fun w => (mkWorld (f (ui w)) (db w) (net w) (now_ts w) (now_iso w), Ret tt).

Definition get_ui {S} : M S S := fun w => (w, Ret (ui w)).
Definition get_now_iso {S} : M S string := fun w => (w, Ret (now_iso w)).

(** The [{ data, error }] answer of the gateway. *)
Record response (A : Type) := mkResponse { data : option A; error : option string }.
Arguments mkResponse {A}.
Arguments data {A}.
Arguments error {A}.

(** One round trip to the remote store.  [exec] is what the store does on
    success, given its clock (the store itself may refuse, e.g. [.single()]
    on a result that is not exactly one row); a failed call leaves the store as it is and
    answers [{ data: null, error }]. *)
Definition remote {S A} (exec : Z -> Db -> Db * outcome A) : M S (response A) :=
  fun w =>
    match net w with
    | Some e :: rest =>
        (mkWorld (ui w) (db w) rest (now_ts w) (now_iso w),
         Ret (mkResponse None (Some e)))
    | _ =>
        let '(d', o) := exec (now_ts w) (db w) in
        (mkWorld (ui w) d' (tl (net w)) (now_ts w) (now_iso w),
         Ret (match o with
              | Ret a => mkResponse (Some a) None
              | Throw e => mkResponse None (Some e)
              end))
    end.

(* ------------------------------------------------------------------ *)
(** ** The store's side of [.select], [.insert], [.update], [.delete] *)

Inductive value :=
| VStr (s : string)
| VNum (z : Z)
| VNull.

(** [.eq(col, v)]: SQL equality, never true against [null]. *)
Definition value_eqb (a b : value) : bool :=
  match a, b with
  | VStr x, VStr y => String.eqb x y
  | VNum x, VNum y => Z.eqb x y
  | _, _ => false
  end.

Definition task_col (c : string) (r : Task.t) : option value :=
  if String.eqb c "id" then Some (VNum (Task.id r))
  else if String.eqb c "employee_email" then Some (VStr (Task.employee_email r))
  else if String.eqb c "status" then Some (VStr (Task.status r))
  else if String.eqb c "title" then Some (VStr (Task.title r))
  else if String.eqb c "created_at" then Some (VNum (Task.created_at r))
  else None.

(** A chain of [.eq] filters and an optional [.order(col, { ascending })]. *)
Record tquery := mkTQuery {
  q_filters : list (string * value);
  q_order : option (string * bool)
}.

Definition matches (fs : list (string * value)) (r : Task.t) : bool :=
  forallb (fun '(c, v) =>
             match task_col c r with
             | Some v' => value_eqb v' v
             | None => false
             end) fs.

Section Ordering.
Context {A : Type} (le : A -> A -> bool).

Fixpoint insert_by (x : A) (l : list A) : list A :=
  match l with
  | [] => [x]
  | y :: l' => if le x y then x :: l else y :: insert_by x l'
  end.

Fixpoint sort_by (l : list A) : list A :=
  match l with
  | [] => []
  | x :: l' => insert_by x (sort_by l')
  end.
End Ordering.

Definition order_key (c : string) : option (Task.t -> Z) :=
  if String.eqb c "created_at" then Some Task.created_at
  else if String.eqb c "id" then Some Task.id
  else None.

Definition order_rows (o : option (string * bool)) (l : list Task.t) : list Task.t :=
  match o with
  | Some (c, asc) =>
      match order_key c with
      | Some k => sort_by (fun x y => if asc then Z.leb (k x) (k y)
                                     else Z.leb (k y) (k x)) l
      | None => l
      end
  | None => l
  end.

Definition set_tasks (d : Db) (ts : list Task.t) : Db :=
  mkDb ts (employees d) (profiles d) (next_id d) (auth d).

(** [select('id, title, description, status, due_date, employee_email,
    created_at')] with the query's filters and order. *)
Definition select_tasks (q : tquery) : Z -> Db -> Db * outcome (list TaskRow.t) :=
  fun _ d =>
    (d, Ret (map TaskRow.of_task
                 (order_rows (q_order q) (filter (matches (q_filters q)) (tasks d))))).

(** [.update(p).eq(...)]: every matching row gets the patch. *)
Definition update_tasks (p : TaskPatch.t) (fs : list (string * value))
  : Z -> Db -> Db * outcome unit :=
  fun _ d =>
    (set_tasks d (map (fun r => if matches fs r then TaskPatch.apply p r else r)
                      (tasks d)), Ret tt).

(** [.insert([p])]: the store assigns the identity and [created_at];
    [completed_at] defaults to null.  The other columns are always given by
    this client. *)
Definition insert_task (p : TaskPatch.t) : Z -> Db -> Db * outcome unit :=
  fun now d =>
    let row := TaskPatch.apply p (Task.mk (next_id d) "" "" "" None "" now None) in
    (mkDb (tasks d ++ [row]) (employees d) (profiles d) (next_id d + 1) (auth d),
     Ret tt).

(** [.delete().eq(...)] *)
Definition delete_tasks (fs : list (string * value)) : Z -> Db -> Db * outcome unit :=
  fun _ d => (set_tasks d (filter (fun r => negb (matches fs r)) (tasks d)), Ret tt).

(* ------------------------------------------------------------------ *)
(** ** The tasks service ([src/unnamed/part_000]) *)

Definition manager_query : tquery :=
  mkTQuery [] (Some ("created_at", false)).

Definition employee_query (email : string) : tquery :=
  mkTQuery [("employee_email", VStr email)] (Some ("created_at", false)).

(** [if (error) throw error; return data || []] *)
Definition rows_or_empty {S A} (r : response (list A)) : M S (list A) :=
  match error r with
  | Some e => throw e
  | None => ret (match data r with Some l => l | None => [] end)
  end.

(** [if (error) throw error] *)
Definition throw_if_error {S A} (r : response A) : M S unit :=
  match error r with
  | Some e => throw e
  | None => ret tt
  end.

Definition getTasksForManager {S} : M S (list TaskRow.t) :=
  r <- remote (select_tasks manager_query);;
  rows_or_empty r.

Definition getTasksForEmployee {S} (email : string) : M S (list TaskRow.t) :=
  r <- remote (select_tasks (employee_query email));;
  rows_or_empty r.

Definition createTask {S} (task : TaskInput.t) : M S unit :=
  r <- remote (insert_task
                 (TaskPatch.mk (Some (TaskInput.title task))
                               (Some (TaskInput.description task))
                               (Some (TaskInput.status task))
                               (Some (to_column (js_or (TaskInput.due_date task) JNull)))
                               (Some (TaskInput.employee_email task))
                               None));;
  throw_if_error r.

Definition id_value (id : option Z) : value :=
  match id with Some z => VNum z | None => VNull end.

Definition updateTask {S} (task : TaskInput.t) : M S unit :=
  r <- remote (update_tasks
                 (TaskPatch.mk (Some (TaskInput.title task))
                               (Some (TaskInput.description task))
                               (Some (TaskInput.status task))
                               (Some (to_column (js_or (TaskInput.due_date task) JNull)))
                               (Some (TaskInput.employee_email task))
                               None)
                 [("id", id_value (TaskInput.id task))]);;
  throw_if_error r.

Definition updateTaskStatus {S} (id : Z) (status : string) : M S unit :=
  fields <- (if String.eqb status "done"
             then now <- get_now_iso;;
                  ret (TaskPatch.mk None None (Some status) None None (Some (Some now)))
             else ret (TaskPatch.mk None None (Some status) None None None));;
  r <- remote (update_tasks fields [("id", VNum id)]);;
  throw_if_error r.

Definition deleteTask {S} (id : Z) : M S unit :=
  r <- remote (delete_tasks [("id", VNum id)]);;
  throw_if_error r.

(* ------------------------------------------------------------------ *)
(** ** The store's side of the [employees] and [profiles] queries *)

(** [.single()]: an error unless exactly one row came back. *)
Definition single {A} (l : list A) : outcome A :=
  match l with
  | [x] => Ret x
  | [] => Throw "JSON object requested, multiple (or no) rows returned"
  | _ => Throw "JSON object requested, multiple (or no) rows returned"
  end.

(** [from('profiles').select('id, full_name, role').eq('id', userId).single()] *)
Definition select_profile (userId : string) : Z -> Db -> Db * outcome Profile.t :=
  fun _ d => (d, single (filter (fun p => String.eqb (Profile.id p) userId)
                                (profiles d))).

(** [from('employees').select(...).order('full_name', { ascending: true })] *)
Definition select_employees : Z -> Db -> Db * outcome (list Employee.t) :=
  fun _ d =>
    (d, Ret (sort_by (fun x y => String.leb (Employee.full_name x)
                                            (Employee.full_name y))
                     (employees d))).

Definition employees_with_email (email : string) (d : Db) : list Employee.t :=
  filter (fun e => String.eqb (Employee.email e) email) (employees d).

(** [from('employees').select(...).eq('email', userEmail).single()] *)
Definition select_employee_by_email (email : string)
  : Z -> Db -> Db * outcome Employee.t :=
  fun _ d => (d, single (employees_with_email email d)).

Definition set_employees (d : Db) (es : list Employee.t) : Db :=
  mkDb (tasks d) es (profiles d) (next_id d) (auth d).

(** [from('employees').update({ full_name, email, role, status }).eq('id', id)] *)
Definition update_employee (fv : EmployeeInput.t) : Z -> Db -> Db * outcome unit :=
  fun _ d =>
    (set_employees d
       (map (fun e => if value_eqb (VNum (Employee.id e)) (id_value (EmployeeInput.id fv))
                      then Employee.mk (Employee.id e) (EmployeeInput.full_name fv)
                             (EmployeeInput.email fv) (EmployeeInput.role fv)
                             (EmployeeInput.status fv)
                      else e) (employees d)), Ret tt).

(** [from('employees').insert([{ full_name, email, role, status }])] *)
Definition insert_employee (fv : EmployeeInput.t) : Z -> Db -> Db * outcome unit :=
  fun _ d =>
    (mkDb (tasks d)
          (employees d ++ [Employee.mk (next_id d) (EmployeeInput.full_name fv)
                             (EmployeeInput.email fv) (EmployeeInput.role fv)
                             (EmployeeInput.status fv)])
          (profiles d) (next_id d + 1) (auth d), Ret tt).

(** [supabase.auth.signInWithPassword({ email, password })] *)
Definition sign_in (email password : string) : Z -> Db -> Db * outcome Session.t :=
  fun _ d => (d, auth d email password).

(** [supabase.auth.signOut()]: the client's local session is dropped; the
    answer may carry an error. *)
Definition sign_out : Z -> Db -> Db * outcome unit := fun _ d => (d, Ret tt).

(** JavaScript truthiness of an identity ([null] or [0] are falsy). *)
Definition truthy_id (id : option Z) : bool :=
  match id with Some z => negb (Z.eqb z 0) | None => false end.

(* ------------------------------------------------------------------ *)
(** ** [App]: session, profile and the dashboard chooser *)

Module AppState.
Record t := mk {
  session : option Session.t;
  profile : option Profile.t;
  loading : bool;
  error : string
}.

Definition initial : t := mk None None true "".

Definition setSession (v : option Session.t) (s : t) : t :=
  mk v (profile s) (loading s) (error s).
Definition setProfile (v : option Profile.t) (s : t) : t :=
  mk (session s) v (loading s) (error s).
Definition setLoading (v : bool) (s : t) : t :=
  mk (session s) (profile s) v (error s).
Definition setError (v : string) (s : t) : t :=
  mk (session s) (profile s) (loading s) v.
End AppState.

Definition fetchProfile (userId : string) : M AppState.t unit :=
  r <- remote (select_profile userId);;
  match error r with
  | Some _ => modify (AppState.setProfile None)
  | None => modify (AppState.setProfile (data r))
  end.

(** [handleLogin] once the form has given [email] and [password]. *)
Definition handleLogin (email password : string) : M AppState.t unit :=
  modify (AppState.setError "");;
  r <- remote (sign_in email password);;
  match error r with
  | Some message => modify (AppState.setError message)
  | None =>
      modify (AppState.setSession (data r));;
      match data r with
      | Some s => fetchProfile (Session.user_id s)
      | None => ret tt
      end
  end.

Definition handleLogout : M AppState.t unit :=
  _ <- remote sign_out;;
  modify (AppState.setSession None);;
  modify (AppState.setProfile None).

(** The [onAuthStateChange] listener ([fetchProfile] is not awaited there;
    the model runs it to completion). *)
Definition onAuthStateChange (newSession : option Session.t) : M AppState.t unit :=
  modify (AppState.setSession newSession);;
  match newSession with
  | Some s => fetchProfile (Session.user_id s)
  | None => modify (AppState.setProfile None)
  end.

(** What [App] renders. *)
Inductive view :=
| LoadingView
| LoginFormView (shown_error : option string)
| ManagerDashboardView
| EmployeeDashboardView (userEmail : string).

(** [{error && <p className="error-text">{error}</p>}] *)
Definition shown (msg : string) : option string :=
  if String.eqb msg "" then None else Some msg.

(** [profile?.role === 'manager'] *)
Definition is_manager (p : option Profile.t) : bool :=
  match p with
  | Some p => match Profile.role p with
              | Some r => String.eqb r "manager"
              | None => false
              end
  | None => false
  end.

Definition render (s : AppState.t) : view :=
  if AppState.loading s then LoadingView
  else match AppState.session s with
       | None => LoginFormView (shown (AppState.error s))
       | Some sess =>
           if is_manager (AppState.profile s) then ManagerDashboardView
           else EmployeeDashboardView (Session.user_email sess)
       end.

(* ------------------------------------------------------------------ *)
(** ** [ManagerDashboard] *)

Module Mgr.
Record t := mk {
  employees : list Employee.t;
  loading : bool;
  error : string;
  editingEmployee : option EmployeeInput.t;
  tasks : list TaskRow.t;
  tasksLoading : bool;
  tasksError : string;
  editingTask : option TaskInput.t
}.

Definition setEmployees v s :=
  mk v (loading s) (error s) (editingEmployee s)
     (tasks s) (tasksLoading s) (tasksError s) (editingTask s).
Definition setLoading v s :=
  mk (employees s) v (error s) (editingEmployee s)
     (tasks s) (tasksLoading s) (tasksError s) (editingTask s).
Definition setError v s :=
  mk (employees s) (loading s) v (editingEmployee s)
     (tasks s) (tasksLoading s) (tasksError s) (editingTask s).
Definition setEditingEmployee v s :=
  mk (employees s) (loading s) (error s) v
     (tasks s) (tasksLoading s) (tasksError s) (editingTask s).
Definition setTasks v s :=
  mk (employees s) (loading s) (error s) (editingEmployee s)
     v (tasksLoading s) (tasksError s) (editingTask s).
Definition setTasksLoading v s :=
  mk (employees s) (loading s) (error s) (editingEmployee s)
     (tasks s) v (tasksError s) (editingTask s).
Definition setTasksError v s :=
  mk (employees s) (loading s) (error s) (editingEmployee s)
     (tasks s) (tasksLoading s) v (editingTask s).
Definition setEditingTask v s :=
  mk (employees s) (loading s) (error s) (editingEmployee s)
     (tasks s) (tasksLoading s) (tasksError s) v.
End Mgr.

(** [try { m } ... finally { f }] where the handler does not rethrow. *)
Definition with_finally {S A} (m : M S A) (f : M S unit) : M S A :=
  fun w => let '(w1, o) := m w in
           match f w1 with
           | (w2, Throw e) => (w2, Throw e)
           | (w2, Ret _) => (w2, o)
           end.

Definition loadEmployees : M Mgr.t unit :=
  modify (Mgr.setLoading true);;
  modify (Mgr.setError "");;
  r <- remote select_employees;;
  match error r with
  | Some _ =>
      modify (Mgr.setError "Could not load employees");;
      modify (Mgr.setLoading false)
  | None =>
      modify (Mgr.setEmployees (match data r with Some l => l | None => [] end));;
      modify (Mgr.setLoading false)
  end.

Definition loadTasks : M Mgr.t unit :=
  modify (Mgr.setTasksLoading true);;
  modify (Mgr.setTasksError "");;
  with_finally
    (try_catch (allTasks <- getTasksForManager;;
                modify (Mgr.setTasks allTasks))
               (fun _ => modify (Mgr.setTasksError "Could not load tasks")))
    (modify (Mgr.setTasksLoading false)).

Definition saveTask (taskValues : TaskInput.t) : M Mgr.t unit :=
  modify (Mgr.setTasksError "");;
  try_catch ((if truthy_id (TaskInput.id taskValues)
              then updateTask taskValues
              else createTask taskValues);;
             modify (Mgr.setEditingTask None);;
             loadTasks)
            (fun _ => modify (Mgr.setTasksError "Could not save task")).

(** [confirmDelete] is the user's answer to [window.confirm]. *)
Definition handleDeleteTask (confirmDelete : bool) (id : Z) : M Mgr.t unit :=
  if negb confirmDelete then ret tt
  else try_catch (deleteTask id;; loadTasks)
                 (fun _ => modify (Mgr.setTasksError "Could not delete task")).

Definition saveEmployee (formValues : EmployeeInput.t) : M Mgr.t unit :=
  modify (Mgr.setError "");;
  r <- (if truthy_id (EmployeeInput.id formValues)
        then remote (update_employee formValues)
        else remote (insert_employee formValues));;
  match error r with
  | Some _ =>
      modify (Mgr.setError (if truthy_id (EmployeeInput.id formValues)
                            then "Could not update employee"
                            else "Could not create employee"))
  | None =>
      modify (Mgr.setEditingEmployee None);;
      loadEmployees
  end.

(* ------------------------------------------------------------------ *)
(** ** [EmployeeDashboard] *)

Module Emp.
Record t := mk {
  employee : option Employee.t;
  loading : bool;
  error : string;
  tasks : list TaskRow.t;
  tasksLoading : bool;
  tasksError : string
}.

(** The state of a freshly mounted dashboard. *)
Definition initial : t := mk None true "" [] true "".

Definition setEmployee v s :=
  mk v (loading s) (error s) (tasks s) (tasksLoading s) (tasksError s).
Definition setLoading v s :=
  mk (employee s) v (error s) (tasks s) (tasksLoading s) (tasksError s).
Definition setError v s :=
  mk (employee s) (loading s) v (tasks s) (tasksLoading s) (tasksError s).
Definition setTasks v s :=
  mk (employee s) (loading s) (error s) v (tasksLoading s) (tasksError s).
Definition setTasksLoading v s :=
  mk (employee s) (loading s) (error s) (tasks s) v (tasksError s).
Definition setTasksError v s :=
  mk (employee s) (loading s) (error s) (tasks s) (tasksLoading s) v.

(** [{!loading && employee && <div className="card">...}]: the profile
    card, when it is shown. *)
Definition profile_card (s : t) : option Employee.t :=
  if loading s then None else employee s.
End Emp.

Definition loadEmployee (userEmail : string) : M Emp.t unit :=
  modify (Emp.setLoading true);;
  modify (Emp.setError "");;
  r <- remote (select_employee_by_email userEmail);;
  match error r with
  | Some _ =>
      modify (Emp.setError "Could not load your employee record");;
      modify (Emp.setLoading false)
  | None =>
      modify (Emp.setEmployee (data r));;
      modify (Emp.setLoading false)
  end.

Definition loadEmployeeTasks (userEmail : string) : M Emp.t unit :=
  modify (Emp.setTasksLoading true);;
  modify (Emp.setTasksError "");;
  with_finally
    (try_catch (myTasks <- getTasksForEmployee userEmail;;
                modify (Emp.setTasks myTasks))
               (fun _ => modify (Emp.setTasksError "Could not load your tasks")))
    (modify (Emp.setTasksLoading false)).

Definition handleStatusChange (userEmail : string) (id : Z) (newStatus : string)
  : M Emp.t unit :=
  try_catch (updateTaskStatus id newStatus;;
             myTasks <- getTasksForEmployee userEmail;;
             modify (Emp.setTasks myTasks))
            (fun _ => modify (Emp.setTasksError "Could not update task status")).

(* ------------------------------------------------------------------ *)
(** ** The rest of [App] and of [ManagerDashboard] *)

(** [supabase.auth.getSession()]: the session the auth client holds
    ([stored]); on an error the answer carries no session. *)
Definition get_session (stored : option Session.t)
  : Z -> Db -> Db * outcome (option Session.t) :=
  fun _ d => (d, Ret stored).

(** [loadInitialSession], run by [App]'s mount effect. *)
Definition loadInitialSession (stored : option Session.t) : M AppState.t unit :=
  r <- remote (get_session stored);;
  let currentSession := match data r with Some s => s | None => None end in
  modify (AppState.setSession currentSession);;
  (match currentSession with
   | Some s => fetchProfile (Session.user_id s)
   | None => ret tt
   end);;
  modify (AppState.setLoading false).

Definition startCreate : M Mgr.t unit :=
  modify (Mgr.setEditingEmployee
            (Some (EmployeeInput.mk None "" "" "employee" "active"))).

(** [employees[0]?.email || ''] *)
Definition first_employee_email (employees : list Employee.t) : string :=
  match employees with
  | e :: _ => Employee.email e
  | [] => ""
  end.

Definition startCreateTask : M Mgr.t unit :=
  s <- get_ui;;
  modify (Mgr.setEditingTask
            (Some (TaskInput.mk None "" "" "todo" (JStr "")
                                (first_employee_email (Mgr.employees s))))).

(** [task.due_date ? task.due_date.slice(0, 10) : ''] *)
Definition due_date_for_form (due : option string) : string :=
  match due with
  | Some d => if String.eqb d "" then "" else String.substring 0 10 d
  | None => ""
  end.

(** [setEditingTask({ ...task, due_date: ... })]: the form reads [id],
    [title], [description], [status], [due_date] and [employee_email]. *)
Definition startEditTask (task : TaskRow.t) : M Mgr.t unit :=
  modify (Mgr.setEditingTask
            (Some (TaskInput.mk (Some (TaskRow.id task)) (TaskRow.title task)
                                (TaskRow.description task) (TaskRow.status task)
                                (JStr (due_date_for_form (TaskRow.due_date task)))
                                (TaskRow.employee_email task)))).

Definition startEdit (employee : Employee.t) : M Mgr.t unit :=
  modify (Mgr.setEditingEmployee
            (Some (EmployeeInput.mk (Some (Employee.id employee))
                                    (Employee.full_name employee)
                                    (Employee.email employee)
                                    (Employee.role employee)
                                    (Employee.status employee)))).

(* ------------------------------------------------------------------ *)
(** ** Vocabulary of the properties, and a sample store *)

(** [.order('created_at', { ascending: false })] between neighbours. *)
Definition newest_first (a b : TaskRow.t) : Prop :=
  (TaskRow.created_at b <= TaskRow.created_at a)%Z.

(** How one row relates to itself after [updateTaskStatus id status]: the
    targeted row has the new status, and the timestamp [now] as
    [completed_at] when the status is ["done"]; every other column, and
    every other row, is as it was. *)
Definition status_update_frame (id : Z) (status now : string)
  (old new : list Task.t) : Prop :=
  Forall2 (fun r r' =>
             Task.id r' = Task.id r
             /\ Task.title r' = Task.title r
             /\ Task.description r' = Task.description r
             /\ Task.due_date r' = Task.due_date r
             /\ Task.employee_email r' = Task.employee_email r
             /\ Task.created_at r' = Task.created_at r
             /\ if Z.eqb (Task.id r) id
                then Task.status r' = status
                     /\ Task.completed_at r'
                        = (if String.eqb status "done" then Some now
                           else Task.completed_at r)
                else r' = r)
          old new.

(** The claim's reading of the stored [due_date]: null when the supplied
    value is absent or empty, the supplied value otherwise. *)
Definition due_date_normalised (supplied : jsval) (stored : option string) : Prop :=
  ((supplied = JUndefined \/ supplied = JStr "") -> stored = None)
  /\ (supplied = JNull -> stored = None)
  /\ (forall s, supplied = JStr s -> s <> "" -> stored = Some s).

(** The sign-in call answers with the rejection [msg]: the gateway fails
    with it, or the auth service refuses the credentials with it. *)
Definition sign_in_rejected {S} (w : world S) (email password msg : string) : Prop :=
  (exists rest, net w = Some msg :: rest)
  \/ ((forall e rest, net w <> Some e :: rest)
      /\ auth (db w) email password = Throw msg).

(** The employees section of the manager dashboard, and the tasks one. *)
Definition employees_section (s : Mgr.t)
  : list Employee.t * bool * string * option EmployeeInput.t :=
  (Mgr.employees s, Mgr.loading s, Mgr.error s, Mgr.editingEmployee s).

Definition tasks_section (s : Mgr.t)
  : list TaskRow.t * bool * string * option TaskInput.t :=
  (Mgr.tasks s, Mgr.tasksLoading s, Mgr.tasksError s, Mgr.editingTask s).

(** A sample store: one employee and one task assigned to her. *)
Definition alice : Employee.t :=
  Employee.mk 1 "Alice" "alice@example.com" "employee" "active".

Definition report_task : Task.t :=
  Task.mk 7 "Write report" "" "todo" None "alice@example.com" 10 None.

Definition sample_db : Db :=
  mkDb [report_task] [alice] [] 8 (fun _ _ => Throw "Invalid login credentials").

Definition report_world (clock : string) : world Emp.t :=
  mkWorld Emp.initial sample_db [] 20 clock.

Definition ann_session : Session.t := Session.mk "u-ann" "ann@example.com".

(** [App] once a manager's session and profile are resolved. *)
Definition ann_signed_in : AppState.t :=
  AppState.mk (Some ann_session) (Some (Profile.mk "u-ann" "Ann" (Some "manager")))
              false "".

(** [App] showing the login form. *)
Definition signed_out : AppState.t := AppState.mk None None false "".

(** A manager dashboard with both lists loaded and a task form open. *)
Definition busy_manager : Mgr.t :=
  Mgr.mk [alice] false "" None
         [TaskRow.of_task report_task] false ""
         (Some (TaskInput.mk (Some 7%Z) "Write report" "" "done" (JStr "") "alice@example.com")).

(** The profile a [fetchProfile uid] call ends with, given the coming
    remote outcomes [n] and the store [d]: the single [profiles] row with
    that id, or null when the call fails or the row is missing or
    ambiguous. *)
Definition resolved_profile (n : list (option string)) (d : Db) (uid : string)
  : option Profile.t :=
  match n with
  | Some _ :: _ => None
  | _ => match filter (fun p => String.eqb (Profile.id p) uid) (profiles d) with
         | [p] => Some p
         | _ => None
         end
  end.

(** A store whose auth service accepts Ann's credentials, with her
    manager profile. *)
Definition ann_db : Db :=
  mkDb [] [] [Profile.mk "u-ann" "Ann" (Some "manager")] 1
       (fun email password =>
          if String.eqb email "ann@example.com" && String.eqb password "s3cret"
          then Ret ann_session
          else Throw "Invalid login credentials").

(** A new-task form filled in for Alice. *)
Definition plan_form : TaskInput.t :=
  TaskInput.mk None "Plan sprint" "" "todo" (JStr "2026-11-02") "alice@example.com".

(** A new-employee form. *)
Definition bob_form : EmployeeInput.t :=
  EmployeeInput.mk None "Bob" "bob@example.com" "employee" "active".

(* ================================================================== *)
(** * Properties *)

(** ** Insertion sort, as the store orders a result *)

Section SortFacts.
Context {A : Type} (le : A -> A -> bool).
Hypothesis le_total : forall a b, le a b = false -> le b a = true.

Lemma insert_by_perm (x : A) (l : list A) :
  Permutation (insert_by le x l) (x :: l).
Proof.
  induction l as [|y l IH]; simpl; [reflexivity|].
  destruct (le x y); [reflexivity|].
  rewrite IH. apply perm_swap.
Qed.

Lemma sort_by_perm (l : list A) : Permutation (sort_by le l) l.
Proof.
  induction l as [|x l IH]; simpl; [reflexivity|].
  rewrite insert_by_perm, IH. reflexivity.
Qed.

Let R (a b : A) : Prop := le a b = true.

Lemma insert_by_sorted (x : A) (l : list A) :
  Sorted R l -> Sorted R (insert_by le x l).
Proof.
  induction l as [|y l IH]; intros Hs; simpl.
  - repeat constructor.
  - destruct (le x y) eqn:Hxy.
    + constructor; [exact Hs | constructor; exact Hxy].
    + apply Sorted_inv in Hs as [Hl Hhd].
      constructor; [now apply IH|].
      destruct l as [|z l']; simpl.
      * constructor. now apply le_total.
      * destruct (le x z).
        -- constructor. now apply le_total.
        -- now apply HdRel_inv in Hhd; constructor.
Qed.

Lemma sort_by_sorted (l : list A) : Sorted R (sort_by le l).
Proof.
  induction l as [|x l IH]; simpl; [constructor|].
  now apply insert_by_sorted.
Qed.
End SortFacts.

Lemma Sorted_map_impl {A B} (f : A -> B) (R : A -> A -> Prop) (R' : B -> B -> Prop)
  (l : list A) :
  (forall a b, R a b -> R' (f a) (f b)) -> Sorted R l -> Sorted R' (map f l).
Proof.
  intros Himp Hs. induction Hs as [|a l Hs IH Hhd]; simpl; constructor; auto.
  destruct Hhd; simpl; constructor; auto.
Qed.

Lemma created_desc_sorted (l : list Task.t) :
  Sorted newest_first
    (map TaskRow.of_task
         (sort_by (fun x y => Z.leb (Task.created_at y) (Task.created_at x)) l)).
Proof.
  apply Sorted_map_impl with
    (R := fun a b => Z.leb (Task.created_at b) (Task.created_at a) = true).
  - intros a b H. unfold newest_first. simpl. now apply Z.leb_le.
  - apply sort_by_sorted. intros a b H.
    apply Z.leb_gt in H. apply Z.leb_le. lia.
Qed.

Lemma created_desc_perm (l : list Task.t) :
  Permutation
    (map TaskRow.of_task
         (sort_by (fun x y => Z.leb (Task.created_at y) (Task.created_at x)) l))
    (map TaskRow.of_task l).
Proof. apply Permutation_map, sort_by_perm. Qed.

Lemma matches_employee_email (email : string) (r : Task.t) :
  matches [("employee_email", VStr email)] r
  = String.eqb (Task.employee_email r) email.
Proof. unfold matches. simpl. now rewrite andb_true_r. Qed.

Lemma filter_no_filters (l : list Task.t) : filter (matches []) l = l.
Proof. induction l as [|r l IH]; simpl; congruence. Qed.

(** Shape of a [remote] call's result. *)
Lemma remote_cases {S A} (exec : Z -> Db -> Db * outcome A) (w : world S) :
  (exists e rest, net w = Some e :: rest /\
     remote exec w = (mkWorld (ui w) (db w) rest (now_ts w) (now_iso w),
                      Ret (mkResponse None (Some e))))
  \/ (forall e rest, net w <> Some e :: rest) /\
     remote exec w =
       (mkWorld (ui w) (fst (exec (now_ts w) (db w))) (tl (net w)) (now_ts w) (now_iso w),
        Ret (match snd (exec (now_ts w) (db w)) with
             | Ret a => mkResponse (Some a) None
             | Throw e => mkResponse None (Some e)
             end)).
Proof.
  unfold remote. destruct (net w) as [|[e|] rest] eqn:Hn.
  - right. split; [congruence|]. now destruct (exec (now_ts w) (db w)).
  - left. now exists e, rest.
  - right. split; [congruence|]. now destruct (exec (now_ts w) (db w)).
Qed.

(** ** C3 *)

(** C3. [getTasksForEmployee email] returns exactly the employee's tasks
    (those whose [employee_email] is [email], as the selected columns),
    newest first; [getTasksForManager] returns every task, newest first.
    The projection drops [completed_at] only. *)
Theorem task_queries_scope_and_order {S} (w : world S) (email : string) :
  match getTasksForEmployee email w with
  | (_, Ret rows) =>
      Permutation rows
        (map TaskRow.of_task
             (filter (fun r => String.eqb (Task.employee_email r) email)
                     (tasks (db w))))
      /\ Forall (fun r => TaskRow.employee_email r = email) rows
      /\ Sorted newest_first rows
  | (_, Throw _) => True
  end
  /\
  match getTasksForManager w with
  | (_, Ret rows) =>
      Permutation rows (map TaskRow.of_task (tasks (db w)))
      /\ Sorted newest_first rows
  | (_, Throw _) => True
  end.
Proof.
  split.
  - unfold getTasksForEmployee, bind, rows_or_empty.
    destruct (remote_cases (select_tasks (employee_query email)) w)
      as [(e & rest & _ & ->) | (_ & ->)]; simpl; [exact I|].
    unfold ret. cbn -[sort_by filter].
    rewrite (filter_ext _ _ (matches_employee_email email)).
    set (l := filter _ (tasks (db w))).
    assert (Hl : Forall (fun r => Task.employee_email r = email) l).
    { apply Forall_forall. intros r Hr. apply filter_In in Hr as [_ Hr].
      now apply String.eqb_eq. }
    split; [apply created_desc_perm|split; [|apply created_desc_sorted]].
    apply Forall_forall. intros r Hr.
    apply (Permutation_in _ (created_desc_perm l)) in Hr.
    apply in_map_iff in Hr as (t & <- & Ht).
    now apply (proj1 (Forall_forall _ _) Hl) in Ht.
  - unfold getTasksForManager, bind, rows_or_empty.
    destruct (remote_cases (select_tasks manager_query) w)
      as [(e & rest & _ & ->) | (_ & ->)]; simpl; [exact I|].
    rewrite filter_no_filters.
    split; [apply created_desc_perm | apply created_desc_sorted].
Qed.

(** ** C2 *)

Lemma matches_id (id : Z) (r : Task.t) :
  matches [("id", VNum id)] r = Z.eqb (Task.id r) id.
Proof. unfold matches. simpl. now rewrite andb_true_r. Qed.

Lemma Forall2_map_self {A} (P : A -> A -> Prop) (f : A -> A) (l : list A) :
  (forall x, P x (f x)) -> Forall2 P l (map f l).
Proof. intros H. induction l; simpl; constructor; auto. Qed.

(** C2. [updateTaskStatus id status] writes [status] to the row with
    identity [id]; only for ["done"] it also writes [completed_at], with the
    non-null current timestamp; for any other status (["todo"],
    ["in_progress"], ...) [completed_at] stays as it was.  No other column,
    no other row and no other table changes.  When the store refuses, nothing
    changes. *)
Theorem updateTaskStatus_frame {S} (w : world S) (id : Z) (status : string) :
  match updateTaskStatus id status w with
  | (w', Ret _) =>
      status_update_frame id status (now_iso w) (tasks (db w)) (tasks (db w'))
      /\ employees (db w') = employees (db w)
      /\ profiles (db w') = profiles (db w)
      /\ next_id (db w') = next_id (db w)
      /\ ui w' = ui w
  | (w', Throw _) => db w' = db w /\ ui w' = ui w
  end.
Proof.
  unfold updateTaskStatus, bind, get_now_iso, ret.
  destruct (String.eqb status "done") eqn:Hd; simpl;
    match goal with
    | |- context [remote ?ex w] =>
        destruct (remote_cases ex w) as [(e & rest & _ & ->) | (_ & ->)]
    end; simpl; unfold throw_if_error, throw, ret; simpl;
    try (split; reflexivity);
    (repeat split; try reflexivity);
    apply Forall2_map_self; intros r;
    rewrite andb_true_r; destruct (Z.eqb (Task.id r) id); repeat split;
    rewrite Hd; reflexivity.
Qed.

(** ** C5 *)

Lemma js_or_null_normalised (v : jsval) :
  due_date_normalised v (to_column (js_or v JNull)).
Proof.
  unfold due_date_normalised, js_or, truthy.
  destruct v as [| |s]; repeat split; intros; try discriminate;
    try reflexivity; try (destruct H; discriminate).
  - destruct H as [H|H]; [discriminate|]. injection H as ->. reflexivity.
  - injection H as ->. apply String.eqb_neq in H0. now rewrite H0.
Qed.

(** C5. [createTask task] appends one row carrying the task's fields, its
    [due_date] null when absent or empty and the supplied value otherwise;
    [updateTask task] rewrites every editable column (title, description,
    status, due_date normalised the same way, employee_email) of the row
    whose identity is [task.id], and of no other row.  A refused call
    changes nothing. *)
Theorem task_writes_normalise_due_date {S} (w : world S) (task : TaskInput.t) :
  match createTask task w with
  | (w', Ret _) =>
      exists row : Task.t, tasks (db w') = (tasks (db w) ++ [row])%list
      /\ Task.title row = TaskInput.title task
      /\ Task.description row = TaskInput.description task
      /\ Task.status row = TaskInput.status task
      /\ Task.employee_email row = TaskInput.employee_email task
      /\ due_date_normalised (TaskInput.due_date task) (Task.due_date row)
  | (w', Throw _) => db w' = db w
  end
  /\
  match updateTask task w with
  | (w', Ret _) =>
      Forall2 (fun r r' =>
                 if value_eqb (VNum (Task.id r)) (id_value (TaskInput.id task))
                 then Task.id r' = Task.id r
                      /\ Task.title r' = TaskInput.title task
                      /\ Task.description r' = TaskInput.description task
                      /\ Task.status r' = TaskInput.status task
                      /\ Task.employee_email r' = TaskInput.employee_email task
                      /\ due_date_normalised (TaskInput.due_date task) (Task.due_date r')
                      /\ Task.created_at r' = Task.created_at r
                      /\ Task.completed_at r' = Task.completed_at r
                 else r' = r)
              (tasks (db w)) (tasks (db w'))
  | (w', Throw _) => db w' = db w
  end.
Proof.
  split.
  - unfold createTask, bind.
    match goal with
    | |- context [remote ?ex w] =>
        destruct (remote_cases ex w) as [(e & rest & _ & ->) | (_ & ->)]
    end; simpl; unfold throw_if_error, throw, ret; simpl; [reflexivity|].
    eexists. split; [reflexivity|].
    repeat split; apply js_or_null_normalised.
  - unfold updateTask, bind.
    match goal with
    | |- context [remote ?ex w] =>
        destruct (remote_cases ex w) as [(e & rest & _ & ->) | (_ & ->)]
    end; simpl; unfold throw_if_error, throw, ret; simpl; [reflexivity|].
    apply Forall2_map_self. intros r. unfold matches. simpl.
    destruct (id_value (TaskInput.id task)) as [v|z|]; try reflexivity.
    rewrite andb_true_r. destruct (Z.eqb (Task.id r) z); [|reflexivity].
    repeat split; apply js_or_null_normalised.
Qed.

(** ** C9 *)

(** C9. Both task queries end in [rows_or_empty], and a successful answer
    with no rows (data [null] or empty) yields the empty list: the result
    type has no null, and [null] is mapped to [[]]. *)
Theorem task_queries_empty_answer {S} (w : world S) (r : response (list TaskRow.t)) :
  error r = None -> (data r = None \/ data r = Some []) ->
  rows_or_empty r w = (w, Ret [])
  /\ @getTasksForManager S = bind (remote (select_tasks manager_query)) rows_or_empty
  /\ (forall email, @getTasksForEmployee S email
                    = bind (remote (select_tasks (employee_query email))) rows_or_empty).
Proof.
  intros Herr Hdata. split; [|split; reflexivity].
  unfold rows_or_empty. rewrite Herr.
  destruct Hdata as [-> | ->]; reflexivity.
Qed.

(** ** C1 *)

(** C1. Once loading is over and a session is held, [App] renders the
    Manager Dashboard exactly when the profile's role is ["manager"], and
    the Employee Dashboard in every other case; a failed profile fetch (a
    remote error, or no single matching row) leaves a null profile and so
    the Employee Dashboard. *)
Theorem dashboard_chooser (s : AppState.t) (sess : Session.t) :
  AppState.loading s = false ->
  AppState.session s = Some sess ->
  (render s = ManagerDashboardView
   <-> exists p, AppState.profile s = Some p /\ Profile.role p = Some "manager")
  /\ (render s <> ManagerDashboardView ->
      render s = EmployeeDashboardView (Session.user_email sess))
  /\ (forall d n ts iso uid,
        (exists e rest, n = Some e :: rest)
        \/ length (filter (fun p => String.eqb (Profile.id p) uid) (profiles d)) <> 1 ->
        render (ui (fst (fetchProfile uid (mkWorld s d n ts iso))))
        = EmployeeDashboardView (Session.user_email sess)).
Proof.
  intros Hl Hs. unfold render. rewrite Hl, Hs.
  split; [|split].
  - unfold is_manager. split.
    + destruct (AppState.profile s) as [p|]; [|discriminate].
      destruct (Profile.role p) as [r|] eqn:Hr; [|discriminate].
      destruct (String.eqb r "manager") eqn:Hm; [|discriminate].
      apply String.eqb_eq in Hm. subst. intros _. now exists p.
    + intros (p & -> & ->). reflexivity.
  - now destruct (is_manager (AppState.profile s)).
  - intros d n ts iso uid Hfail.
    unfold fetchProfile, bind, remote, modify, select_profile. simpl.
    destruct Hfail as [(e & rest & ->) | Hlen]; simpl; [now rewrite Hl, Hs|].
    destruct (filter (fun p => String.eqb (Profile.id p) uid) (profiles d))
      as [|p [|q l]]; [| simpl in Hlen; lia |];
      destruct n as [|[e'|] rest]; simpl; now rewrite Hl, Hs.
Qed.

(** ** C10 *)

(** C10. [handleLogout] always ends with no session and no profile,
    whatever the sign-out call answers, so [App] shows the login form. *)
Theorem handleLogout_resets (w : world AppState.t) :
  AppState.loading (ui w) = false ->
  match handleLogout w with
  | (w', o) =>
      o = Ret tt
      /\ AppState.session (ui w') = None
      /\ AppState.profile (ui w') = None
      /\ render (ui w') = LoginFormView (shown (AppState.error (ui w)))
  end.
Proof.
  intros Hl. unfold handleLogout, bind, modify.
  destruct (remote_cases (A := unit) sign_out w)
    as [(e & rest & _ & ->) | (_ & ->)]; simpl;
    unfold render; simpl; rewrite Hl; repeat split.
Qed.

(** ** C8 *)

(** C8. From the login form (no session, loading over), a rejected sign-in
    leaves the session null, stores the rejection's message as the error,
    and [App] still renders the login form showing it: no dashboard. *)
Theorem handleLogin_rejected (w : world AppState.t) (email password msg : string) :
  AppState.loading (ui w) = false ->
  AppState.session (ui w) = None ->
  sign_in_rejected w email password msg ->
  msg <> "" ->
  AppState.session (ui (fst (handleLogin email password w))) = None
  /\ AppState.error (ui (fst (handleLogin email password w))) = msg
  /\ render (ui (fst (handleLogin email password w))) = LoginFormView (Some msg).
Proof.
  intros Hl Hs Hrej Hmsg.
  assert (Hsh : shown msg = Some msg)
    by (unfold shown; apply String.eqb_neq in Hmsg; now rewrite Hmsg).
  unfold sign_in_rejected in Hrej.
  destruct w as [s d n ts iso]; simpl in *.
  unfold handleLogin, bind, modify, remote, sign_in; simpl.
  destruct Hrej as [(rest & Hn) | (Hn & Ha)]; simpl in Hn.
  - subst n. simpl. unfold render. simpl. now rewrite Hl, Hs, Hsh.
  - destruct n as [|[e|] rest]; [| now destruct (Hn e rest) |];
      simpl; rewrite Ha; simpl; unfold render; simpl; now rewrite Hl, Hs, Hsh.
Qed.

(** ** C6 *)

(** C6. When the first remote call of a manager-dashboard operation fails,
    the operation sets its own section's error message only: the other
    section (list, loading flag, error, form) is untouched, and so are the
    list and the open form of its own section. *)
Theorem manager_failures_stay_local (w : world Mgr.t) (e : string)
  (rest : list (option string)) :
  net w = Some e :: rest ->
  (let s' := ui (fst (loadEmployees w)) in
   Mgr.error s' = "Could not load employees"
   /\ Mgr.employees s' = Mgr.employees (ui w)
   /\ Mgr.editingEmployee s' = Mgr.editingEmployee (ui w)
   /\ tasks_section s' = tasks_section (ui w))
  /\
  (let s' := ui (fst (loadTasks w)) in
   Mgr.tasksError s' = "Could not load tasks"
   /\ Mgr.tasks s' = Mgr.tasks (ui w)
   /\ Mgr.editingTask s' = Mgr.editingTask (ui w)
   /\ employees_section s' = employees_section (ui w))
  /\
  (forall taskValues,
   let s' := ui (fst (saveTask taskValues w)) in
   Mgr.tasksError s' = "Could not save task"
   /\ Mgr.tasks s' = Mgr.tasks (ui w)
   /\ Mgr.editingTask s' = Mgr.editingTask (ui w)
   /\ employees_section s' = employees_section (ui w))
  /\
  (forall id,
   let s' := ui (fst (handleDeleteTask true id w)) in
   Mgr.tasksError s' = "Could not delete task"
   /\ Mgr.tasks s' = Mgr.tasks (ui w)
   /\ Mgr.editingTask s' = Mgr.editingTask (ui w)
   /\ employees_section s' = employees_section (ui w))
  /\
  (forall formValues,
   let s' := ui (fst (saveEmployee formValues w)) in
   Mgr.error s' = (if truthy_id (EmployeeInput.id formValues)
                   then "Could not update employee"
                   else "Could not create employee")
   /\ Mgr.employees s' = Mgr.employees (ui w)
   /\ Mgr.editingEmployee s' = Mgr.editingEmployee (ui w)
   /\ tasks_section s' = tasks_section (ui w)).
Proof.
  intros Hn. destruct w as [[] d n ts iso]; simpl in Hn; subst n.
  split; [|split; [|split; [|split]]].
  - unfold loadEmployees, bind, modify, remote. simpl. repeat split.
  - unfold loadTasks, getTasksForManager, bind, modify, remote, with_finally,
      try_catch, rows_or_empty, throw. simpl. repeat split.
  - intros tv. unfold saveTask, updateTask, createTask, bind, modify, remote,
      try_catch, throw_if_error, throw. simpl.
    destruct (truthy_id (TaskInput.id tv)); simpl; repeat split.
  - intros id. unfold handleDeleteTask, deleteTask, bind, modify, remote,
      try_catch, throw_if_error, throw. simpl. repeat split.
  - intros fv. unfold saveEmployee, bind, modify, remote. simpl.
    destruct (truthy_id (EmployeeInput.id fv)); simpl; repeat split.
Qed.

(** ** C7 *)

(** C7 (as amended). A self-lookup whose email matches zero or several
    employee rows fails: the inline error is shown and the [employee] state
    is left as it was, so a dashboard that holds no record yet (a fresh
    mount) shows no profile. *)
Theorem loadEmployee_lookup_failure (w : world Emp.t) (userEmail : string) :
  length (employees_with_email userEmail (db w)) <> 1 ->
  shown (Emp.error (ui (fst (loadEmployee userEmail w))))
    = Some "Could not load your employee record"
  /\ Emp.employee (ui (fst (loadEmployee userEmail w))) = Emp.employee (ui w)
  /\ Emp.loading (ui (fst (loadEmployee userEmail w))) = false
  /\ (Emp.employee (ui w) = None ->
      Emp.profile_card (ui (fst (loadEmployee userEmail w))) = None).
Proof.
  intros Hlen.
  destruct w as [[emp l er ts tl' te] d n now iso]; simpl in Hlen.
  unfold loadEmployee, bind, modify, remote, select_employee_by_email.
  simpl.
  destruct n as [|[e|] rest]; simpl; [| now repeat split |];
    destruct (employees_with_email userEmail d) as [|x [|y k]];
    try (simpl in Hlen; lia); simpl; now repeat split.
Qed.

(** C7, as stated, fails when the lookup effect re-runs for a new
    [userEmail] (the session's email changed while the dashboard stayed
    mounted): no row matches the new email, the error is shown, and the
    record loaded for the earlier email is still displayed. *)
Lemma loadEmployee_rerun_keeps_profile :
  length (employees_with_email "bob@example.com" sample_db) = 0
  /\ shown (Emp.error (ui (fst (loadEmployee "bob@example.com"
         (fst (loadEmployee "alice@example.com"
                 (mkWorld Emp.initial sample_db [] 0 "")))))))
     = Some "Could not load your employee record"
  /\ Emp.profile_card (ui (fst (loadEmployee "bob@example.com"
         (fst (loadEmployee "alice@example.com"
                 (mkWorld Emp.initial sample_db [] 0 ""))))))
     = Some alice.
Proof. vm_compute. split; [|split]; reflexivity. Qed.

(** ** C4 *)

Lemma update_by_id_sets_status (p : TaskPatch.t) (id : Z) (st : string)
  (l : list Task.t) :
  TaskPatch.status p = Some st ->
  Forall (fun r => Task.id r = id -> Task.status r = st)
    (map (fun r => if matches [("id", VNum id)] r then TaskPatch.apply p r else r) l).
Proof.
  intros Hp. apply Forall_forall. intros r Hr.
  apply in_map_iff in Hr as (r0 & <- & _).
  rewrite matches_id. destruct (Z.eqb (Task.id r0) id) eqn:He.
  - intros _. simpl. now rewrite Hp.
  - intros Hid. apply Z.eqb_neq in He. contradiction.
Qed.

(** C4 (as amended). When both calls of [handleStatusChange] succeed, the
    reloaded list is exactly the employee's rows of the updated store, as
    the selected columns (id, title, description, status, due_date,
    employee_email, created_at), newest first, and the targeted row holds
    the new status; [completed_at] is not among the selected columns. *)
Theorem handleStatusChange_reloads (w : world Emp.t) (userEmail : string)
  (id : Z) (newStatus : string) :
  (forall e rest, net w <> Some e :: rest) ->
  (forall e rest, tl (net w) <> Some e :: rest) ->
  snd (handleStatusChange userEmail id newStatus w) = Ret tt
  /\ Emp.tasks (ui (fst (handleStatusChange userEmail id newStatus w)))
     = map TaskRow.of_task
         (sort_by (fun x y => Z.leb (Task.created_at y) (Task.created_at x))
            (filter (fun r => String.eqb (Task.employee_email r) userEmail)
               (tasks (db (fst (handleStatusChange userEmail id newStatus w))))))
  /\ Forall (fun r => Task.id r = id -> Task.status r = newStatus)
       (tasks (db (fst (handleStatusChange userEmail id newStatus w)))).
Proof.
  intros H1 H2.
  destruct w as [s d n ts iso]; simpl in H1, H2.
  assert (Hn : n = [] \/ exists rest, n = None :: rest /\
                                      (forall e r, rest <> Some e :: r)).
  { destruct n as [|[e|] rest]; [now left| now destruct (H1 e rest)|].
    right. exists rest. split; [reflexivity|]. exact H2. }
  clear H1 H2.
  unfold handleStatusChange, updateTaskStatus, getTasksForEmployee, try_catch,
    bind, get_now_iso, modify, remote, ret, throw_if_error, rows_or_empty.
  destruct (String.eqb newStatus "done");
    (destruct Hn as [-> | (rest & -> & Hr)];
     [| destruct rest as [|[e|] rest']; [| now destruct (Hr e rest') |]]);
    cbn -[sort_by filter matches];
    (split; [reflexivity|split]);
    try (rewrite (filter_ext _ _ (matches_employee_email userEmail)); reflexivity);
    apply update_by_id_sets_status; reflexivity.
Qed.

(** C4, as stated, fails: marking the task done at two different client
    clocks stores two different [completed_at] values, yet the reloaded
    lists are identical, so the list cannot reflect the stored
    [completed_at]. *)
Lemma reloaded_list_ignores_completed_at :
  map Task.completed_at
      (tasks (db (fst (handleStatusChange "alice@example.com" 7 "done"
                         (report_world "2024-05-01T09:00:00.000Z")))))
    = [Some "2024-05-01T09:00:00.000Z"]
  /\ map Task.completed_at
      (tasks (db (fst (handleStatusChange "alice@example.com" 7 "done"
                         (report_world "2024-06-01T09:00:00.000Z")))))
    = [Some "2024-06-01T09:00:00.000Z"]
  /\ Emp.tasks (ui (fst (handleStatusChange "alice@example.com" 7 "done"
                           (report_world "2024-05-01T09:00:00.000Z"))))
     = Emp.tasks (ui (fst (handleStatusChange "alice@example.com" 7 "done"
                             (report_world "2024-06-01T09:00:00.000Z")))).
Proof. vm_compute. split; [|split]; reflexivity. Qed.

(* ------------------------------------------------------------------ *)
(** ** The theorems at concrete inputs *)

Lemma dashboard_chooser_witness :
  AppState.loading ann_signed_in = false
  /\ AppState.session ann_signed_in = Some ann_session
  /\ (render ann_signed_in = ManagerDashboardView
      <-> exists p, AppState.profile ann_signed_in = Some p
                    /\ Profile.role p = Some "manager").
Proof.
  split; [reflexivity|split; [reflexivity|]].
  exact (proj1 (dashboard_chooser ann_signed_in ann_session eq_refl eq_refl)).
Defined.

Lemma task_queries_empty_answer_witness :
  error (mkResponse (A := list TaskRow.t) None None) = None
  /\ rows_or_empty (mkResponse (A := list TaskRow.t) None None)
                   (mkWorld tt sample_db [] 0 "")
     = (mkWorld tt sample_db [] 0 "", Ret []).
Proof.
  split; [reflexivity|].
  exact (proj1 (task_queries_empty_answer (mkWorld tt sample_db [] 0 "")
                  (mkResponse None None) eq_refl (or_introl eq_refl))).
Defined.

Lemma handleLogout_resets_witness :
  AppState.loading (ui (mkWorld ann_signed_in sample_db [Some "network error"] 0 ""))
    = false
  /\ match handleLogout (mkWorld ann_signed_in sample_db [Some "network error"] 0 "") with
     | (w', o) =>
         o = Ret tt
         /\ AppState.session (ui w') = None
         /\ AppState.profile (ui w') = None
         /\ render (ui w') = LoginFormView (shown (AppState.error ann_signed_in))
     end.
Proof.
  split; [reflexivity|].
  exact (handleLogout_resets (mkWorld ann_signed_in sample_db [Some "network error"] 0 "")
           eq_refl).
Defined.

Lemma handleLogin_rejected_witness :
  sign_in_rejected (mkWorld signed_out sample_db [] 0 "")
                   "alice@example.com" "wrong" "Invalid login credentials"
  /\ render (ui (fst (handleLogin "alice@example.com" "wrong"
                        (mkWorld signed_out sample_db [] 0 ""))))
     = LoginFormView (Some "Invalid login credentials").
Proof.
  assert (Hrej : sign_in_rejected (mkWorld signed_out sample_db [] 0 "")
                   "alice@example.com" "wrong" "Invalid login credentials").
  { right. split; [intros e rest; simpl; discriminate | reflexivity]. }
  split; [exact Hrej|].
  exact (proj2 (proj2 (handleLogin_rejected (mkWorld signed_out sample_db [] 0 "")
                         "alice@example.com" "wrong" "Invalid login credentials"
                         eq_refl eq_refl Hrej ltac:(discriminate)))).
Defined.

Lemma manager_failures_stay_local_witness :
  net (mkWorld busy_manager sample_db [Some "network error"] 0 "")
    = Some "network error" :: []
  /\ Mgr.tasksError (ui (fst (saveTask (TaskInput.mk (Some 7%Z) "Write report" ""
                                          "done" (JStr "") "alice@example.com")
                               (mkWorld busy_manager sample_db
                                        [Some "network error"] 0 ""))))
     = "Could not save task".
Proof.
  split; [reflexivity|].
  exact (proj1 (proj1 (proj2 (proj2 (manager_failures_stay_local
          (mkWorld busy_manager sample_db [Some "network error"] 0 "")
          "network error" [] eq_refl)))
          (TaskInput.mk (Some 7%Z) "Write report" "" "done" (JStr "") "alice@example.com"))).
Defined.

Lemma loadEmployee_lookup_failure_witness :
  length (employees_with_email "bob@example.com" sample_db) <> 1
  /\ Emp.profile_card (ui (fst (loadEmployee "bob@example.com"
                                  (mkWorld Emp.initial sample_db [] 0 "")))) = None.
Proof.
  assert (Hlen : length (employees_with_email "bob@example.com" sample_db) <> 1)
    by (vm_compute; lia).
  split; [exact Hlen|].
  exact (proj2 (proj2 (proj2 (loadEmployee_lookup_failure
           (mkWorld Emp.initial sample_db [] 0 "") "bob@example.com" Hlen))) eq_refl).
Defined.

Lemma handleStatusChange_reloads_witness :
  net (report_world "2024-05-01T09:00:00.000Z") = []
  /\ snd (handleStatusChange "alice@example.com" 7 "done"
            (report_world "2024-05-01T09:00:00.000Z")) = Ret tt.
Proof.
  split; [reflexivity|].
  exact (proj1 (handleStatusChange_reloads (report_world "2024-05-01T09:00:00.000Z")
           "alice@example.com" 7 "done"
           (fun e rest => ltac:(simpl; discriminate))
           (fun e rest => ltac:(simpl; discriminate)))).
Defined.

(* ================================================================== *)
(** * Further properties of the code *)

(** ** Session and profile resolution in [App] *)

Lemma fetchProfile_result (w : world AppState.t) (uid : string) :
  ui (fst (fetchProfile uid w))
  = AppState.setProfile (resolved_profile (net w) (db w) uid) (ui w)
  /\ db (fst (fetchProfile uid w)) = db w
  /\ net (fst (fetchProfile uid w)) = tl (net w)
  /\ snd (fetchProfile uid w) = Ret tt.
Proof.
  destruct w as [s d n ts iso].
  unfold fetchProfile, resolved_profile, bind, modify, remote, select_profile; simpl.
  destruct n as [|[e|] rest]; simpl; [| repeat split |];
    destruct (filter (fun p => String.eqb (Profile.id p) uid) (profiles d))
      as [|p [|q l]]; repeat split.
Qed.

(** [fetchProfile uid] sets the profile to the single [profiles] row whose
    id is [uid], or to null when the query fails or finds no row or several;
    the previous profile never survives, and session, loading flag and login
    error are untouched. *)
Theorem fetchProfile_resolves (w : world AppState.t) (uid : string) :
  AppState.profile (ui (fst (fetchProfile uid w))) = resolved_profile (net w) (db w) uid
  /\ AppState.session (ui (fst (fetchProfile uid w))) = AppState.session (ui w)
  /\ AppState.loading (ui (fst (fetchProfile uid w))) = AppState.loading (ui w)
  /\ AppState.error (ui (fst (fetchProfile uid w))) = AppState.error (ui w).
Proof.
  destruct (fetchProfile_result w uid) as [Hui _]. rewrite Hui.
  destruct (ui w); repeat split.
Qed.

(** On an auth-state notification, [App] takes the new session; with no
    session the profile is cleared, with a session it is resolved again from
    the store whatever profile was held before. *)
Theorem onAuthStateChange_resolves (w : world AppState.t) (newSession : option Session.t) :
  AppState.session (ui (fst (onAuthStateChange newSession w))) = newSession
  /\ AppState.profile (ui (fst (onAuthStateChange newSession w)))
     = match newSession with
       | Some s => resolved_profile (net w) (db w) (Session.user_id s)
       | None => None
       end.
Proof.
  destruct w as [s0 d n ts iso].
  unfold onAuthStateChange.
  destruct newSession as [sess|]; unfold bind, modify; simpl.
  - destruct (fetchProfile_result
                (mkWorld (AppState.setSession (Some sess) s0) d n ts iso)
                (Session.user_id sess)) as [Hui _].
    destruct (fetchProfile (Session.user_id sess) _) as [w' o] eqn:Hf.
    simpl in Hui |- *. rewrite Hui. split; reflexivity.
  - split; reflexivity.
Qed.

(** [loadInitialSession] always ends the loading phase.  It adopts the
    session the auth client holds (none when [getSession] fails) and, when
    there is one, resolves its profile. *)
Theorem loadInitialSession_ends_loading (w : world AppState.t) (stored : option Session.t) :
  AppState.loading (ui (fst (loadInitialSession stored w))) = false
  /\ AppState.session (ui (fst (loadInitialSession stored w)))
     = match net w with Some _ :: _ => None | _ => stored end
  /\ match net w, stored with
     | Some _ :: _, _ | _, None =>
         AppState.profile (ui (fst (loadInitialSession stored w)))
         = AppState.profile (ui w)
     | _, Some s =>
         AppState.profile (ui (fst (loadInitialSession stored w)))
         = resolved_profile (tl (net w)) (db w) (Session.user_id s)
     end.
Proof.
  destruct w as [s0 d n ts iso].
  unfold loadInitialSession, bind, modify, ret, remote, get_session. simpl.
  destruct n as [|[e|] rest]; simpl; [| repeat split |];
    (destruct stored as [sess|]; simpl; [| repeat split]);
  match goal with
  | |- context [fetchProfile ?u ?w0] =>
      destruct (fetchProfile_result w0 u) as (Hui & _ & _ & Ho);
      destruct (fetchProfile u w0) as [w' o]; simpl in Hui, Ho |- *;
      subst o; simpl; rewrite Hui; repeat split
  end.
Qed.

(** A sign-in the auth service accepts clears the login error, adopts the
    session and resolves its profile, so [App] leaves the login form for the
    dashboard the profile's role selects. *)
Theorem handleLogin_accepted (w : world AppState.t) (email password : string)
  (sess : Session.t) :
  (forall e rest, net w <> Some e :: rest) ->
  auth (db w) email password = Ret sess ->
  AppState.loading (ui w) = false ->
  AppState.session (ui (fst (handleLogin email password w))) = Some sess
  /\ AppState.error (ui (fst (handleLogin email password w))) = ""
  /\ AppState.profile (ui (fst (handleLogin email password w)))
     = resolved_profile (tl (net w)) (db w) (Session.user_id sess)
  /\ render (ui (fst (handleLogin email password w)))
     = if is_manager (resolved_profile (tl (net w)) (db w) (Session.user_id sess))
       then ManagerDashboardView
       else EmployeeDashboardView (Session.user_email sess).
Proof.
  intros Hn Ha Hl.
  destruct w as [s0 d n ts iso]; simpl in Hn, Ha, Hl |- *.
  assert (Hn' : n = [] \/ exists rest, n = None :: rest)
    by (destruct n as [|[e|] rest];
        [left; reflexivity | now destruct (Hn e rest) | right; eexists; reflexivity]).
  unfold handleLogin, bind, modify, remote, sign_in. simpl.
  destruct Hn' as [-> | (rest & ->)]; simpl; rewrite Ha; simpl;
  match goal with
  | |- context [fetchProfile ?u ?w0] =>
      destruct (fetchProfile_result w0 u) as (Hui & _ & _ & _);
      destruct (fetchProfile u w0) as [w' o]; simpl in Hui |- *;
      rewrite Hui; unfold render; simpl; rewrite Hl; repeat split
  end.
Qed.

(** ** Task mutations in [ManagerDashboard] *)

Lemma forall_rows_after_perm (P : TaskRow.t -> Prop) (l : list Task.t) (rows : list TaskRow.t) :
  Permutation rows (map TaskRow.of_task l) ->
  Forall (fun r => P (TaskRow.of_task r)) l -> Forall P rows.
Proof.
  intros Hp Hl. apply Forall_forall. intros x Hx.
  apply (Permutation_in _ Hp) in Hx. apply in_map_iff in Hx as (r & <- & Hr).
  exact (proj1 (Forall_forall _ _) Hl r Hr).
Qed.

(** Deleting a task needs the user's confirmation: without it nothing
    happens.  With it, and when the calls succeed, the store loses exactly
    the rows with that id, the reloaded list (all remaining tasks) has no row
    with that id, and the employees section and the open task form are
    untouched. *)
Theorem handleDeleteTask_removes (w : world Mgr.t) (id : Z) :
  net w = [] ->
  handleDeleteTask false id w = (w, Ret tt)
  /\ tasks (db (fst (handleDeleteTask true id w)))
     = filter (fun r => negb (Z.eqb (Task.id r) id)) (tasks (db w))
  /\ Permutation (Mgr.tasks (ui (fst (handleDeleteTask true id w))))
                 (map TaskRow.of_task (tasks (db (fst (handleDeleteTask true id w)))))
  /\ Forall (fun r => TaskRow.id r <> id) (Mgr.tasks (ui (fst (handleDeleteTask true id w))))
  /\ Mgr.tasksError (ui (fst (handleDeleteTask true id w))) = ""
  /\ Mgr.editingTask (ui (fst (handleDeleteTask true id w))) = Mgr.editingTask (ui w)
  /\ employees_section (ui (fst (handleDeleteTask true id w)))
     = employees_section (ui w).
Proof.
  intros Hn. destruct w as [[] d n ts iso]; simpl in Hn; subst n.
  split; [reflexivity|].
  unfold handleDeleteTask, deleteTask, loadTasks, getTasksForManager, try_catch,
    with_finally, bind, modify, remote, throw_if_error, rows_or_empty, ret,
    delete_tasks, select_tasks.
  cbn -[sort_by filter matches].
  rewrite filter_no_filters.
  rewrite (filter_ext _ (fun r => negb (Z.eqb (Task.id r) id))
             (fun r => f_equal negb (matches_id id r))).
  set (l := filter _ (tasks d)).
  assert (Hl : Forall (fun r => Task.id r <> id) l).
  { apply Forall_forall. intros r Hr. apply filter_In in Hr as [_ Hr].
    apply negb_true_iff, Z.eqb_neq in Hr. exact Hr. }
  split; [reflexivity|]. split; [apply created_desc_perm|].
  split; [|repeat split].
  apply (forall_rows_after_perm _ l); [apply created_desc_perm|].
  exact Hl.
Qed.

Lemma loadTasks_ok (w : world Mgr.t) :
  net w = [] ->
  loadTasks w
  = (mkWorld (Mgr.setTasksLoading false
                (Mgr.setTasks
                   (map TaskRow.of_task
                      (sort_by (fun x y => Z.leb (Task.created_at y) (Task.created_at x))
                               (tasks (db w))))
                   (Mgr.setTasksError "" (Mgr.setTasksLoading true (ui w)))))
             (db w) [] (now_ts w) (now_iso w), Ret tt).
Proof.
  intros Hn. destruct w as [s d n ts iso]; simpl in Hn; subst n.
  unfold loadTasks, getTasksForManager, try_catch, with_finally, bind, modify,
    remote, rows_or_empty, ret, select_tasks.
  cbn -[sort_by filter matches]. now rewrite filter_no_filters.
Qed.

Lemma createTask_ok {S} (w : world S) (task : TaskInput.t) :
  net w = [] ->
  createTask task w
  = (mkWorld (ui w)
       (mkDb (tasks (db w) ++
                [Task.mk (next_id (db w)) (TaskInput.title task)
                   (TaskInput.description task) (TaskInput.status task)
                   (to_column (js_or (TaskInput.due_date task) JNull))
                   (TaskInput.employee_email task) (now_ts w) None])
             (employees (db w)) (profiles (db w)) (next_id (db w) + 1) (auth (db w)))
       [] (now_ts w) (now_iso w), Ret tt).
Proof.
  intros Hn. destruct w as [s d n ts iso]; simpl in Hn; subst n.
  reflexivity.
Qed.

Lemma saveTask_create_eq (w : world Mgr.t) (tv : TaskInput.t) :
  net w = [] ->
  truthy_id (TaskInput.id tv) = false ->
  saveTask tv w
  = loadTasks (mkWorld (Mgr.setEditingTask None (Mgr.setTasksError "" (ui w)))
                       (db (fst (createTask tv w))) [] (now_ts w) (now_iso w)).
Proof.
  intros Hn Hid. destruct w as [s d n ts iso]; simpl in Hn; subst n.
  unfold saveTask. rewrite Hid.
  unfold try_catch, bind, modify. cbn -[loadTasks].
  rewrite loadTasks_ok by reflexivity. reflexivity.
Qed.

(** Saving the task form without an id (a new task) inserts one row: it
    gets the next identity, the store's clock as [created_at] and a null
    [completed_at]; the form closes and the reloaded list shows the new
    task. *)
Theorem saveTask_creates (w : world Mgr.t) (tv : TaskInput.t) :
  net w = [] ->
  truthy_id (TaskInput.id tv) = false ->
  snd (saveTask tv w) = Ret tt
  /\ exists row : Task.t,
       tasks (db (fst (saveTask tv w))) = (tasks (db w) ++ [row])%list
       /\ Task.id row = next_id (db w)
       /\ Task.created_at row = now_ts w
       /\ Task.completed_at row = None
       /\ Task.employee_email row = TaskInput.employee_email tv
       /\ next_id (db (fst (saveTask tv w))) = (next_id (db w) + 1)%Z
       /\ Mgr.editingTask (ui (fst (saveTask tv w))) = None
       /\ Mgr.tasksError (ui (fst (saveTask tv w))) = ""
       /\ In (TaskRow.of_task row) (Mgr.tasks (ui (fst (saveTask tv w)))).
Proof.
  intros Hn Hid.
  rewrite saveTask_create_eq, loadTasks_ok by (try exact Hn; exact Hid || reflexivity). simpl.
  rewrite createTask_ok by exact Hn. simpl.
  split; [reflexivity|].
  eexists. split; [reflexivity|].
  repeat split.
  apply (Permutation_in _ (Permutation_sym (created_desc_perm _))).
  apply in_map, in_or_app. right. left. reflexivity.
Qed.

(** With no employee listed, the new-task form starts with an empty
    assignee (and the other defaults), and the assignee select offers no
    option to change it: saving that form once a title is typed in does not
    fail, and stores a ["todo"] task with that title, an empty
    [employee_email] and a null [due_date]. *)
Theorem new_task_form_without_employees (w : world Mgr.t) (title : string) :
  net w = [] ->
  Mgr.employees (ui w) = [] ->
  match Mgr.editingTask (ui (fst (startCreateTask w))) with
  | Some tv =>
      tv = TaskInput.mk None "" "" "todo" (JStr "") ""
      /\ let typed := TaskInput.mk (TaskInput.id tv) title (TaskInput.description tv)
                        (TaskInput.status tv) (TaskInput.due_date tv)
                        (TaskInput.employee_email tv) in
         snd (saveTask typed (fst (startCreateTask w))) = Ret tt
         /\ exists row : Task.t,
              tasks (db (fst (saveTask typed (fst (startCreateTask w)))))
              = (tasks (db w) ++ [row])%list
              /\ Task.title row = title
              /\ Task.status row = "todo"
              /\ Task.employee_email row = ""
              /\ Task.due_date row = None
  | None => False
  end.
Proof.
  intros Hn He.
  destruct w as [s d n ts iso]; simpl in Hn, He; subst n.
  unfold startCreateTask, bind, get_ui, modify. cbn -[saveTask]. rewrite He.
  cbn -[saveTask].
  split; [reflexivity|].
  rewrite saveTask_create_eq, loadTasks_ok by reflexivity. simpl.
  split; [reflexivity|].
  eexists. repeat split.
Qed.

Lemma substring_whole (s : string) (m : nat) :
  String.length s <= m -> String.substring 0 m s = s.
Proof.
  revert m. induction s as [|c s IH]; intros m Hm.
  - destruct m; reflexivity.
  - destruct m as [|m]; simpl in Hm; [lia|].
    simpl. rewrite IH by lia. reflexivity.
Qed.

Lemma due_date_form_round_trip (due : option string) :
  (due = None \/ exists d, due = Some d /\ 0 < String.length d <= 10) ->
  to_column (js_or (JStr (due_date_for_form due)) JNull) = due.
Proof.
  intros [-> | (d & -> & Hlen)]; [reflexivity|].
  unfold due_date_for_form.
  destruct (String.eqb d "") eqn:He.
  - apply String.eqb_eq in He. subst d. simpl in Hlen. lia.
  - rewrite substring_whole by lia.
    unfold js_or, truthy. rewrite He. reflexivity.
Qed.

Lemma in_nodup_map_eq {A B} (f : A -> B) (l : list A) (a b : A) :
  NoDup (map f l) -> In a l -> In b l -> f a = f b -> a = b.
Proof.
  induction l as [|x l IH]; simpl; intros Hnd Ha Hb Hf; [contradiction|].
  inversion Hnd as [|? ? Hx Hnd']; subst.
  destruct Ha as [<- | Ha], Hb as [<- | Hb]; auto.
  - exfalso. apply Hx. rewrite Hf. now apply in_map.
  - exfalso. apply Hx. rewrite <- Hf. now apply in_map.
Qed.

Lemma updateTask_ok {S} (w : world S) (task : TaskInput.t) :
  net w = [] ->
  updateTask task w
  = (mkWorld (ui w)
       (set_tasks (db w)
          (map (fun r => if matches [("id", id_value (TaskInput.id task))] r
                         then TaskPatch.apply
                                (TaskPatch.mk (Some (TaskInput.title task))
                                   (Some (TaskInput.description task))
                                   (Some (TaskInput.status task))
                                   (Some (to_column (js_or (TaskInput.due_date task) JNull)))
                                   (Some (TaskInput.employee_email task))
                                   None) r
                         else r)
               (tasks (db w))))
       [] (now_ts w) (now_iso w), Ret tt).
Proof.
  intros Hn. destruct w as [s d n ts iso]; simpl in Hn; subst n.
  reflexivity.
Qed.

Lemma saveTask_update_eq (w : world Mgr.t) (tv : TaskInput.t) :
  net w = [] ->
  truthy_id (TaskInput.id tv) = true ->
  saveTask tv w
  = loadTasks (mkWorld (Mgr.setEditingTask None (Mgr.setTasksError "" (ui w)))
                       (db (fst (updateTask tv w))) [] (now_ts w) (now_iso w)).
Proof.
  intros Hn Hid. destruct w as [s d n ts iso]; simpl in Hn; subst n.
  unfold saveTask. rewrite Hid.
  unfold try_catch, bind, modify. cbn -[loadTasks].
  rewrite loadTasks_ok by reflexivity. reflexivity.
Qed.

(** Saving the task form for an id that no stored task has (a task deleted
    in the meantime) matches no row: the store is left as it was, no error
    is shown and the form closes. *)
Theorem saveTask_unknown_id (w : world Mgr.t) (tv : TaskInput.t) :
  net w = [] ->
  truthy_id (TaskInput.id tv) = true ->
  (forall r, In r (tasks (db w)) -> TaskInput.id tv <> Some (Task.id r)) ->
  snd (saveTask tv w) = Ret tt
  /\ db (fst (saveTask tv w)) = db w
  /\ Mgr.editingTask (ui (fst (saveTask tv w))) = None
  /\ Mgr.tasksError (ui (fst (saveTask tv w))) = "".
Proof.
  intros Hn Hid Hnone.
  rewrite saveTask_update_eq, loadTasks_ok by (reflexivity || assumption).
  rewrite updateTask_ok by assumption. simpl.
  rewrite (map_ext_in _ (fun r => r)), map_id.
  - destruct (db w); repeat split.
  - intros r Hr. destruct (TaskInput.id tv) as [z|] eqn:Hz; [|reflexivity].
    cbn [id_value]. rewrite andb_true_r. destruct (Z.eqb_spec (Task.id r) z) as [He|]; [|reflexivity].
    exfalso. apply (Hnone r Hr). now rewrite He.
Qed.

(** Opening a stored task in the edit form and saving the form unchanged
    leaves the store as it was, when task ids are unique, the id is not 0
    and the due date is null or a string of 1 to 10 characters (a date). *)
Theorem edit_task_round_trip (w : world Mgr.t) (t : Task.t) :
  net w = [] ->
  In t (tasks (db w)) ->
  NoDup (map Task.id (tasks (db w))) ->
  Task.id t <> 0%Z ->
  (Task.due_date t = None
   \/ exists d, Task.due_date t = Some d /\ 0 < String.length d <= 10) ->
  match Mgr.editingTask (ui (fst (startEditTask (TaskRow.of_task t) w))) with
  | Some tv =>
      snd (saveTask tv (fst (startEditTask (TaskRow.of_task t) w))) = Ret tt
      /\ db (fst (saveTask tv (fst (startEditTask (TaskRow.of_task t) w)))) = db w
      /\ Mgr.editingTask
           (ui (fst (saveTask tv (fst (startEditTask (TaskRow.of_task t) w))))) = None
  | None => False
  end.
Proof.
  intros Hn Hin Hnd Hid Hdue.
  destruct w as [s d n ts iso]; simpl in Hn, Hin, Hnd; subst n.
  unfold startEditTask, modify. cbn -[saveTask due_date_for_form].
  rewrite saveTask_update_eq, loadTasks_ok
    by (simpl; try reflexivity; now apply negb_true_iff, Z.eqb_neq).
  rewrite updateTask_ok by reflexivity. cbn -[due_date_for_form matches].
  rewrite (map_ext_in _ (fun r => r)), map_id.
  - destruct d; repeat split.
  - intros r Hr. rewrite matches_id.
    destruct (Z.eqb_spec (Task.id r) (Task.id t)) as [He|]; [|reflexivity].
    rewrite (in_nodup_map_eq Task.id _ r t Hnd Hr Hin He).
    rewrite due_date_form_round_trip by exact Hdue.
    destruct t; reflexivity.
Qed.

(** ** The employee list and form of [ManagerDashboard] *)

Lemma name_leb_total (a b : Employee.t) :
  String.leb (Employee.full_name a) (Employee.full_name b) = false ->
  String.leb (Employee.full_name b) (Employee.full_name a) = true.
Proof.
  intros H. destruct (String.leb_total (Employee.full_name a) (Employee.full_name b));
    congruence.
Qed.

(** [loadEmployees] always clears its loading flag and never touches the
    store.  On success the dashboard lists exactly the store's employees,
    ordered by [full_name]; on a failed call it shows
    ["Could not load employees"] and keeps the list it had. *)
Theorem loadEmployees_result (w : world Mgr.t) :
  snd (loadEmployees w) = Ret tt
  /\ db (fst (loadEmployees w)) = db w
  /\ Mgr.loading (ui (fst (loadEmployees w))) = false
  /\ match net w with
     | Some _ :: _ =>
         Mgr.error (ui (fst (loadEmployees w))) = "Could not load employees"
         /\ Mgr.employees (ui (fst (loadEmployees w))) = Mgr.employees (ui w)
     | _ =>
         Mgr.error (ui (fst (loadEmployees w))) = ""
         /\ Permutation (Mgr.employees (ui (fst (loadEmployees w)))) (employees (db w))
         /\ Sorted (fun a b => String.leb (Employee.full_name a) (Employee.full_name b) = true)
                   (Mgr.employees (ui (fst (loadEmployees w))))
     end.
Proof.
  destruct w as [s d n ts iso].
  unfold loadEmployees, bind, modify, remote. simpl.
  destruct n as [|[e|] rest]; cbn -[sort_by];
    repeat split; try reflexivity;
    first [ apply (sort_by_perm _) | apply (sort_by_sorted _ name_leb_total) ].
Qed.

Lemma saveEmployee_ok (w : world Mgr.t) (fv : EmployeeInput.t) :
  net w = [] ->
  saveEmployee fv w
  = let d' := fst ((if truthy_id (EmployeeInput.id fv)
                    then update_employee fv else insert_employee fv)
                     (now_ts w) (db w)) in
    (mkWorld (Mgr.setLoading false
                (Mgr.setEmployees
                   (sort_by (fun x y => String.leb (Employee.full_name x)
                                                   (Employee.full_name y))
                            (employees d'))
                   (Mgr.setError ""
                      (Mgr.setLoading true
                         (Mgr.setEditingEmployee None (Mgr.setError "" (ui w)))))))
             d' [] (now_ts w) (now_iso w), Ret tt).
Proof.
  intros Hn. destruct w as [s d n ts iso]; simpl in Hn; subst n.
  unfold saveEmployee. destruct (truthy_id (EmployeeInput.id fv)); reflexivity.
Qed.

(** A failed save of the employee form shows ["Could not update employee"]
    (the form had an id) or ["Could not create employee"] (it had none),
    keeps the form open with its values, and leaves the store and the list
    as they were. *)
Theorem saveEmployee_failure_keeps_form (w : world Mgr.t) (fv : EmployeeInput.t)
  (e : string) (rest : list (option string)) :
  net w = Some e :: rest ->
  snd (saveEmployee fv w) = Ret tt
  /\ Mgr.error (ui (fst (saveEmployee fv w)))
     = (if truthy_id (EmployeeInput.id fv)
        then "Could not update employee" else "Could not create employee")
  /\ Mgr.editingEmployee (ui (fst (saveEmployee fv w))) = Mgr.editingEmployee (ui w)
  /\ Mgr.employees (ui (fst (saveEmployee fv w))) = Mgr.employees (ui w)
  /\ db (fst (saveEmployee fv w)) = db w.
Proof.
  intros Hn. destruct w as [s d n ts iso]; simpl in Hn; subst n.
  unfold saveEmployee, bind, modify, remote.
  destruct (truthy_id (EmployeeInput.id fv)); simpl; repeat split.
Qed.

(** Saving the employee form without an id adds one employee, with the
    next identity and the form's name, email, role and status; the form
    closes and the reloaded list contains the new employee. *)
Theorem saveEmployee_creates (w : world Mgr.t) (fv : EmployeeInput.t) :
  net w = [] ->
  truthy_id (EmployeeInput.id fv) = false ->
  let added := Employee.mk (next_id (db w)) (EmployeeInput.full_name fv)
                 (EmployeeInput.email fv) (EmployeeInput.role fv)
                 (EmployeeInput.status fv) in
  snd (saveEmployee fv w) = Ret tt
  /\ employees (db (fst (saveEmployee fv w))) = (employees (db w) ++ [added])%list
  /\ next_id (db (fst (saveEmployee fv w))) = (next_id (db w) + 1)%Z
  /\ tasks (db (fst (saveEmployee fv w))) = tasks (db w)
  /\ Mgr.editingEmployee (ui (fst (saveEmployee fv w))) = None
  /\ Mgr.error (ui (fst (saveEmployee fv w))) = ""
  /\ In added (Mgr.employees (ui (fst (saveEmployee fv w)))).
Proof.
  intros Hn Hid added. rewrite saveEmployee_ok by exact Hn. rewrite Hid.
  cbn -[sort_by]. repeat split.
  apply (Permutation_in _ (Permutation_sym (sort_by_perm _ _))).
  apply in_or_app. right. left. reflexivity.
Qed.

(** Opening a stored employee in the edit form and saving the form
    unchanged leaves the store as it was and closes the form, when employee
    ids are unique and the id is not 0. *)
Theorem edit_employee_round_trip (w : world Mgr.t) (e : Employee.t) :
  net w = [] ->
  In e (employees (db w)) ->
  NoDup (map Employee.id (employees (db w))) ->
  Employee.id e <> 0%Z ->
  match Mgr.editingEmployee (ui (fst (startEdit e w))) with
  | Some fv =>
      snd (saveEmployee fv (fst (startEdit e w))) = Ret tt
      /\ db (fst (saveEmployee fv (fst (startEdit e w)))) = db w
      /\ Mgr.editingEmployee (ui (fst (saveEmployee fv (fst (startEdit e w))))) = None
  | None => False
  end.
Proof.
  intros Hn Hin Hnd Hid.
  destruct w as [s d n ts iso]; simpl in Hn, Hin, Hnd; subst n.
  unfold startEdit, modify. cbn -[saveEmployee].
  rewrite saveEmployee_ok by reflexivity. simpl.
  destruct (Z.eqb_spec (Employee.id e) 0) as [|_]; [contradiction|]. simpl.
  rewrite (map_ext_in _ (fun x => x)), map_id.
  - destruct d; repeat split.
  - intros x Hx. destruct (Z.eqb_spec (Employee.id x) (Employee.id e)) as [He|]; [|reflexivity].
    rewrite (in_nodup_map_eq Employee.id _ x e Hnd Hx Hin He).
    destruct e; reflexivity.
Qed.

(** ** Loading and updating in the dashboards *)

(** [loadTasks] always clears its loading flag and never touches the
    store.  On success the task section lists every stored task, newest
    first, with no error; on a failed call it shows ["Could not load tasks"]
    and keeps the list it had. *)
Theorem loadTasks_result (w : world Mgr.t) :
  snd (loadTasks w) = Ret tt
  /\ db (fst (loadTasks w)) = db w
  /\ Mgr.tasksLoading (ui (fst (loadTasks w))) = false
  /\ match net w with
     | Some _ :: _ =>
         Mgr.tasksError (ui (fst (loadTasks w))) = "Could not load tasks"
         /\ Mgr.tasks (ui (fst (loadTasks w))) = Mgr.tasks (ui w)
     | _ =>
         Mgr.tasksError (ui (fst (loadTasks w))) = ""
         /\ Permutation (Mgr.tasks (ui (fst (loadTasks w))))
                        (map TaskRow.of_task (tasks (db w)))
         /\ Sorted newest_first (Mgr.tasks (ui (fst (loadTasks w))))
     end.
Proof.
  destruct w as [s d n ts iso].
  unfold loadTasks, getTasksForManager, with_finally, try_catch, bind, modify,
    remote, rows_or_empty, ret, throw, select_tasks.
  destruct n as [|[e|] rest]; cbn -[sort_by filter matches];
    repeat split; try reflexivity; rewrite filter_no_filters;
    first [apply created_desc_perm | apply created_desc_sorted].
Qed.

(** [loadEmployeeTasks email] always clears its loading flag and never
    touches the store.  On success the list holds exactly the stored tasks
    assigned to [email], newest first, with no error; on a failed call it
    shows ["Could not load your tasks"] and keeps the list it had. *)
Theorem loadEmployeeTasks_result (w : world Emp.t) (userEmail : string) :
  snd (loadEmployeeTasks userEmail w) = Ret tt
  /\ db (fst (loadEmployeeTasks userEmail w)) = db w
  /\ Emp.tasksLoading (ui (fst (loadEmployeeTasks userEmail w))) = false
  /\ match net w with
     | Some _ :: _ =>
         Emp.tasksError (ui (fst (loadEmployeeTasks userEmail w)))
           = "Could not load your tasks"
         /\ Emp.tasks (ui (fst (loadEmployeeTasks userEmail w))) = Emp.tasks (ui w)
     | _ =>
         Emp.tasksError (ui (fst (loadEmployeeTasks userEmail w))) = ""
         /\ Permutation (Emp.tasks (ui (fst (loadEmployeeTasks userEmail w))))
              (map TaskRow.of_task
                   (filter (fun r => String.eqb (Task.employee_email r) userEmail)
                           (tasks (db w))))
         /\ Sorted newest_first (Emp.tasks (ui (fst (loadEmployeeTasks userEmail w))))
     end.
Proof.
  destruct w as [s d n ts iso].
  unfold loadEmployeeTasks, getTasksForEmployee, with_finally, try_catch, bind,
    modify, remote, rows_or_empty, ret, throw, select_tasks.
  destruct n as [|[e|] rest]; cbn -[sort_by filter matches];
    repeat split; try reflexivity;
    rewrite (filter_ext _ _ (matches_employee_email userEmail));
    first [apply created_desc_perm | apply created_desc_sorted].
Qed.

(** When the email lookup of [loadEmployee] answers with exactly one row,
    the dashboard shows that row as the profile card, with no error. *)
Theorem loadEmployee_found (w : world Emp.t) (userEmail : string) (e : Employee.t) :
  (forall x rest, net w <> Some x :: rest) ->
  employees_with_email userEmail (db w) = [e] ->
  Emp.profile_card (ui (fst (loadEmployee userEmail w))) = Some e
  /\ Emp.error (ui (fst (loadEmployee userEmail w))) = ""
  /\ db (fst (loadEmployee userEmail w)) = db w.
Proof.
  intros Hn He. destruct w as [s d n ts iso]; simpl in Hn, He.
  unfold loadEmployee, bind, modify, remote, select_employee_by_email.
  destruct n as [|[x|] rest]; [| exfalso; now apply (Hn x rest) |];
    cbn -[employees_with_email]; rewrite He; simpl; repeat split.
Qed.

(** When the status update of [handleStatusChange] goes through but the
    reload of the list fails, the store keeps the update, the displayed
    list stays as it was, and the dashboard shows
    ["Could not update task status"]. *)
Theorem handleStatusChange_reload_fails (w : world Emp.t) (userEmail : string)
  (id : Z) (newStatus : string) (e : string) (rest : list (option string)) :
  net w = None :: Some e :: rest ->
  snd (handleStatusChange userEmail id newStatus w) = Ret tt
  /\ status_update_frame id newStatus (now_iso w) (tasks (db w))
       (tasks (db (fst (handleStatusChange userEmail id newStatus w))))
  /\ Emp.tasks (ui (fst (handleStatusChange userEmail id newStatus w)))
     = Emp.tasks (ui w)
  /\ Emp.tasksError (ui (fst (handleStatusChange userEmail id newStatus w)))
     = "Could not update task status".
Proof.
  intros Hn. destruct w as [s d n ts iso]; simpl in Hn; subst n.
  unfold handleStatusChange, updateTaskStatus, getTasksForEmployee, try_catch,
    bind, get_now_iso, modify, remote, ret, throw, throw_if_error, rows_or_empty.
  destruct (String.eqb newStatus "done") eqn:Hd; simpl;
    (repeat split; try reflexivity);
    apply Forall2_map_self; intros r;
    rewrite andb_true_r; destruct (Z.eqb (Task.id r) id); repeat split;
    rewrite Hd; reflexivity.
Qed.

(** ** Witnesses of the further properties *)

Lemma handleLogin_accepted_witness :
  AppState.session (ui (fst (handleLogin "ann@example.com" "s3cret"
                               (mkWorld signed_out ann_db [] 0 ""))))
    = Some ann_session
  /\ render (ui (fst (handleLogin "ann@example.com" "s3cret"
                        (mkWorld signed_out ann_db [] 0 ""))))
    = ManagerDashboardView.
Proof.
  destruct (handleLogin_accepted (mkWorld signed_out ann_db [] 0 "")
              "ann@example.com" "s3cret" ann_session
              (fun e rest H => ltac:(discriminate H)) eq_refl eq_refl)
    as (Hs & _ & _ & Hr).
  split; [exact Hs|]. rewrite Hr. reflexivity.
Defined.

Lemma handleDeleteTask_removes_witness :
  net (mkWorld busy_manager sample_db [] 0 "") = []
  /\ tasks (db (fst (handleDeleteTask true 7 (mkWorld busy_manager sample_db [] 0 ""))))
     = [].
Proof.
  split; [reflexivity|].
  destruct (handleDeleteTask_removes (mkWorld busy_manager sample_db [] 0 "") 7 eq_refl)
    as (_ & Ht & _).
  rewrite Ht. reflexivity.
Defined.

Lemma saveTask_creates_witness :
  truthy_id (TaskInput.id plan_form) = false
  /\ snd (saveTask plan_form (mkWorld busy_manager sample_db [] 30 "")) = Ret tt
  /\ next_id (db (fst (saveTask plan_form (mkWorld busy_manager sample_db [] 30 ""))))
     = 9%Z.
Proof.
  destruct (saveTask_creates (mkWorld busy_manager sample_db [] 30 "") plan_form
              eq_refl eq_refl)
    as (Hok & row & _ & _ & _ & _ & _ & Hnext & _).
  split; [reflexivity|]. split; [exact Hok|]. rewrite Hnext. reflexivity.
Defined.

Lemma new_task_form_without_employees_witness :
  Mgr.employees (Mgr.setEmployees [] busy_manager) = []
  /\ match Mgr.editingTask
             (ui (fst (startCreateTask
                         (mkWorld (Mgr.setEmployees [] busy_manager) sample_db [] 30 ""))))
     with
     | Some tv =>
         tv = TaskInput.mk None "" "" "todo" (JStr "") ""
         /\ let typed := TaskInput.mk (TaskInput.id tv) "Plan sprint"
                           (TaskInput.description tv) (TaskInput.status tv)
                           (TaskInput.due_date tv) (TaskInput.employee_email tv) in
            snd (saveTask typed
                   (fst (startCreateTask
                           (mkWorld (Mgr.setEmployees [] busy_manager) sample_db [] 30 ""))))
              = Ret tt
            /\ exists row : Task.t,
                 tasks (db (fst (saveTask typed
                                   (fst (startCreateTask
                                           (mkWorld (Mgr.setEmployees [] busy_manager)
                                                    sample_db [] 30 ""))))))
                 = (tasks sample_db ++ [row])%list
                 /\ Task.title row = "Plan sprint"
                 /\ Task.status row = "todo"
                 /\ Task.employee_email row = ""
                 /\ Task.due_date row = None
     | None => False
     end.
Proof.
  split; [reflexivity|].
  exact (new_task_form_without_employees
           (mkWorld (Mgr.setEmployees [] busy_manager) sample_db [] 30 "")
           "Plan sprint" eq_refl eq_refl).
Defined.

Lemma saveTask_unknown_id_witness :
  truthy_id (Some 42%Z) = true
  /\ db (fst (saveTask (TaskInput.mk (Some 42%Z) "Gone" "" "todo" JNull "")
                       (mkWorld busy_manager sample_db [] 30 "")))
     = sample_db
  /\ Mgr.tasksError (ui (fst (saveTask (TaskInput.mk (Some 42%Z) "Gone" "" "todo" JNull "")
                                       (mkWorld busy_manager sample_db [] 30 ""))))
     = "".
Proof.
  assert (Hnone : forall r, In r (tasks sample_db) -> Some 42%Z <> Some (Task.id r)).
  { intros r [<- | []]. discriminate. }
  destruct (saveTask_unknown_id (mkWorld busy_manager sample_db [] 30 "")
              (TaskInput.mk (Some 42%Z) "Gone" "" "todo" JNull "")
              eq_refl eq_refl Hnone)
    as (_ & Hd & _ & He).
  split; [reflexivity|]. split; [exact Hd | exact He].
Defined.

Lemma edit_task_round_trip_witness :
  In report_task (tasks sample_db)
  /\ match Mgr.editingTask
             (ui (fst (startEditTask (TaskRow.of_task report_task)
                         (mkWorld busy_manager sample_db [] 30 ""))))
     with
     | Some tv =>
         snd (saveTask tv (fst (startEditTask (TaskRow.of_task report_task)
                                  (mkWorld busy_manager sample_db [] 30 ""))))
           = Ret tt
         /\ db (fst (saveTask tv (fst (startEditTask (TaskRow.of_task report_task)
                                         (mkWorld busy_manager sample_db [] 30 "")))))
            = sample_db
         /\ Mgr.editingTask
              (ui (fst (saveTask tv (fst (startEditTask (TaskRow.of_task report_task)
                                             (mkWorld busy_manager sample_db [] 30 ""))))))
            = None
     | None => False
     end.
Proof.
  assert (Hin : In report_task (tasks sample_db)) by (left; reflexivity).
  split; [exact Hin|].
  apply (edit_task_round_trip (mkWorld busy_manager sample_db [] 30 "") report_task
           eq_refl Hin).
  - repeat constructor. simpl. tauto.
  - discriminate.
  - left. reflexivity.
Defined.

Lemma saveEmployee_failure_keeps_form_witness :
  net (mkWorld busy_manager sample_db [Some "network down"] 0 "") = [Some "network down"]
  /\ Mgr.error (ui (fst (saveEmployee bob_form
                           (mkWorld busy_manager sample_db [Some "network down"] 0 ""))))
     = "Could not create employee"
  /\ db (fst (saveEmployee bob_form
                (mkWorld busy_manager sample_db [Some "network down"] 0 "")))
     = sample_db.
Proof.
  destruct (saveEmployee_failure_keeps_form
              (mkWorld busy_manager sample_db [Some "network down"] 0 "") bob_form
              "network down" [] eq_refl)
    as (_ & He & _ & _ & Hd).
  split; [reflexivity|]. split; [exact He | exact Hd].
Defined.

Lemma saveEmployee_creates_witness :
  truthy_id (EmployeeInput.id bob_form) = false
  /\ employees (db (fst (saveEmployee bob_form (mkWorld busy_manager sample_db [] 0 ""))))
     = [alice; Employee.mk 8 "Bob" "bob@example.com" "employee" "active"].
Proof.
  destruct (saveEmployee_creates (mkWorld busy_manager sample_db [] 0 "") bob_form
              eq_refl eq_refl)
    as (_ & He & _).
  split; [reflexivity|]. rewrite He. reflexivity.
Defined.

Lemma edit_employee_round_trip_witness :
  In alice (employees sample_db)
  /\ match Mgr.editingEmployee (ui (fst (startEdit alice
                                           (mkWorld busy_manager sample_db [] 0 ""))))
     with
     | Some fv =>
         snd (saveEmployee fv (fst (startEdit alice (mkWorld busy_manager sample_db [] 0 ""))))
           = Ret tt
         /\ db (fst (saveEmployee fv (fst (startEdit alice
                                             (mkWorld busy_manager sample_db [] 0 "")))))
            = sample_db
         /\ Mgr.editingEmployee
              (ui (fst (saveEmployee fv (fst (startEdit alice
                                                 (mkWorld busy_manager sample_db [] 0 ""))))))
            = None
     | None => False
     end.
Proof.
  assert (Hin : In alice (employees sample_db)) by (left; reflexivity).
  split; [exact Hin|].
  apply (edit_employee_round_trip (mkWorld busy_manager sample_db [] 0 "") alice
           eq_refl Hin).
  - repeat constructor. simpl. tauto.
  - discriminate.
Defined.

Lemma loadEmployee_found_witness :
  employees_with_email "alice@example.com" sample_db = [alice]
  /\ Emp.profile_card (ui (fst (loadEmployee "alice@example.com" (report_world ""))))
     = Some alice.
Proof.
  split; [reflexivity|].
  exact (proj1 (loadEmployee_found (report_world "") "alice@example.com" alice
                  (fun e rest H => ltac:(discriminate H)) eq_refl)).
Defined.

Lemma handleStatusChange_reload_fails_witness :
  Emp.tasksError (ui (fst (handleStatusChange "alice@example.com" 7 "done"
                             (mkWorld Emp.initial sample_db [None; Some "timeout"] 20
                                      "2026-10-19T09:00:00Z"))))
    = "Could not update task status"
  /\ map Task.status
       (tasks (db (fst (handleStatusChange "alice@example.com" 7 "done"
                          (mkWorld Emp.initial sample_db [None; Some "timeout"] 20
                                   "2026-10-19T09:00:00Z")))))
     = ["done"].
Proof.
  destruct (handleStatusChange_reload_fails
              (mkWorld Emp.initial sample_db [None; Some "timeout"] 20 "2026-10-19T09:00:00Z")
              "alice@example.com" 7 "done" "timeout" [] eq_refl)
    as (_ & _ & _ & He).
  split; [exact He | reflexivity].
Defined.
